(** * Dujiaoka -> AuraLogic migration script: a shallow embedding

    The Python script [scripts/migrate_dujiaoka.py] reads goods, stock
    items ("carmis") and coupons from a Dujiaoka database and writes them
    to the AuraLogic admin API.  This file embeds

    - [AuraLogicClient._request] and the typed operations built on it
      (module [Client]): the retry loop, the rate-limit branch and the
      scoped override of session headers;
    - [MigrationEngine] (section [Engine]): the three migration stages,
      the identifier maps, the statistics, the log, and the run-end report
      and mapping file.

    Exceptions are values of [exn]; a computation that may raise returns
    an [outcome].  Engine code threads its state through the monad [M],
    whose [try_except] is Python's [try: ... except Exception as e: ...]. *)

From stdpp Require Import base gmap strings list pretty.
From Stdlib Require Import ZArith Lia.

Local Open Scope Z_scope.

(** ** Exceptions and outcomes *)

(** The exception classes the script distinguishes.  [RequestException]
    stands for [requests.exceptions.RequestException] and its subclasses
    (connection errors, [HTTPError] from [raise_for_status]); [RuntimeError]
    is the terminal error of [_request], whose message is formatted from
    the attempt budget and from [str(last_err)] ([None] when no request
    exception was caught). *)
Inductive exn : Type :=
| RequestException (msg : string)
| RuntimeError (attempts : Z) (last_err : option string)
| ValueError (msg : string)
| AttributeError (msg : string)
| OtherError (msg : string).

(** [str(e)] *)
Definition exn_str (e : exn) : string :=
  match e with
  | RequestException msg | ValueError msg | AttributeError msg
  | OtherError msg => msg
  | RuntimeError n last =>
      "API request failed after " +:+ pretty n +:+ " attempts: "
        +:+ default "None" last
  end.

Definition is_request_exception (e : exn) : bool :=
  match e with RequestException _ => true | _ => false end.

Inductive outcome (A : Type) : Type :=
| Return (a : A)
| Raise (e : exn).
Arguments Return {A} a.
Arguments Raise {A} e.

Definition raised {A} (o : outcome A) : bool :=
  match o with Raise _ => true | Return _ => false end.

(** ** Python dictionaries

    A [dict] keeps its keys in insertion order and assigning to a key that
    is already present replaces its value in place. *)
Section Dict.
Context {K V : Type} `{EqDecision K}.

Fixpoint dict_get (k : K) (d : list (K * V)) : option V :=
  match d with
  | [] => None
  | (k', v) :: d' => if decide (k = k') then Some v else dict_get k d'
  end.

Fixpoint dict_set (k : K) (v : V) (d : list (K * V)) : list (K * V) :=
  match d with
  | [] => [(k, v)]
  | (k', v') :: d' =>
      if decide (k = k') then (k, v) :: d' else (k', v') :: dict_set k v d'
  end.

Definition dict_keys (d : list (K * V)) : list K := d.*1.
End Dict.

(** ** Parsed API responses

    The engine reads three things from a response body: the top-level
    [id], the [id] nested under [data], and the [id] nested under [stock].
    A nested field is absent, present but not an object (so that calling
    [.get] on it raises [AttributeError]), or an object whose [id] may be
    missing.  Identifiers are integers; [None] covers both a missing key
    and JSON [null]. *)
Inductive nested : Type :=
| Absent
| NotAnObject
| Object (id : option Z).

Inductive response : Type :=
| RespObject (top_id : option Z) (data stock : nested)
| RespOther.

(** The [{}] returned by [_request] for an empty body. *)
Definition empty_response : response := RespObject None Absent Absent.

(** Truthiness of an optional integer: [None] and [0] are falsy. *)
Definition truthy (o : option Z) : bool :=
  match o with Some z => negb (z =? 0) | None => false end.

(** [d.get(key, {}).get("id")] for a nested field [d]. *)
Definition nested_id (n : nested) : outcome (option Z) :=
  match n with
  | Absent => Return None
  | NotAnObject => Raise (AttributeError "object has no attribute 'get'")
  | Object i => Return i
  end.

(** [result.get("id") or result.get("data", {}).get("id")] *)
Definition extract_id (r : response) : outcome (option Z) :=
  match r with
  | RespOther => Raise (AttributeError "object has no attribute 'get'")
  | RespObject top data _ => if truthy top then Return top else nested_id data
  end.

(** [result.get("stock", {}).get("id")] *)
Definition extract_stock_id (r : response) : outcome (option Z) :=
  match r with
  | RespOther => Raise (AttributeError "object has no attribute 'get'")
  | RespObject _ _ stock => nested_id stock
  end.

(** * The API client *)
Module Client.

(** Session and per-request headers, keyed by header name. *)
Abbreviation headers := (gmap string string).

Inductive req_body : Type :=
| JsonBody (fields : list (string * string))
| FormBody (fields : list (string * string))
| QueryParams (fields : list (string * string)).

Record request := {
  req_method : string;
  req_url : string;
  req_session_headers : headers;   (* the session headers in force *)
  req_headers : headers;           (* kwargs["headers"] *)
  req_body_of : req_body;
}.

Inductive body : Type :=
| EmptyText                        (* resp.text is empty *)
| JsonText (v : response)          (* resp.json() returns v *)
| BadText (e : exn).               (* resp.json() raises e *)

Record http_response := {
  status_code : Z;
  retry_after : option string;     (* resp.headers.get("Retry-After") *)
  resp_body : body;
}.

Inductive transport_result : Type :=
| Responds (r : http_response)
| Throws (e : exn).

(** A wait handed to [time.sleep]: either [float] of the Retry-After
    header text or [retry_delay * attempt]. *)
Inductive delay : Type :=
| RetryAfter (text : string)
| Backoff (attempt : Z).

Inductive io_event : Type :=
| Sent (attempt : Z) (rq : request)
| Slept (d : delay)
| WarnRateLimited (d : delay) (attempt : Z)
| WarnRetrying (attempt : Z) (e : exn).

(** What one pass through the body of the [for] loop does. *)
Inductive attempt_result : Type :=
| Returned (v : response)          (* return resp.json() if resp.text else {} *)
| Propagated (e : exn)             (* an exception the loop does not catch *)
| RateLimited (wait : delay)       (* the 429 branch: sleep, continue *)
| Caught (e : exn).                (* except RequestException as e *)

Section Request.
Variable base_url : string.
Variable retry_count : Z.
(** [float(text)] succeeds on [text]. *)
Variable is_float_literal : string → bool.
(** The network: the answer to the [attempt]-th [session.request]. *)
Variable transport : Z → request → transport_result.

(** [resp.raise_for_status()] raises [HTTPError] on 4xx and 5xx. *)
Definition raise_for_status (r : http_response) : option exn :=
  if (400 <=? status_code r) && (status_code r <? 600)
  then Some (RequestException "HTTPError") else None.

Definition classify (e : exn) : attempt_result :=
  if is_request_exception e then Caught e else Propagated e.

Definition one_attempt (attempt : Z) (rq : request) : attempt_result :=
  match transport attempt rq with
  | Throws e => classify e
  | Responds r =>
      if status_code r =? 429 then
        match retry_after r with
        | Some text =>
            if is_float_literal text then RateLimited (RetryAfter text)
            else Propagated (ValueError "could not convert string to float")
        | None => RateLimited (Backoff attempt)
        end
      else
        match raise_for_status r with
        | Some e => Caught e
        | None =>
            match resp_body r with
            | EmptyText => Returned empty_response
            | JsonText v => Returned v
            | BadText e => classify e
            end
        end
  end.

(** [for attempt in range(1, retry_count + 1)] followed by the
    [raise RuntimeError]; [slots] is the number of attempts left. *)
Fixpoint attempts (slots : nat) (attempt : Z) (last_err : option string)
    (rq : request) : outcome response * list io_event :=
  match slots with
  | O => (Raise (RuntimeError retry_count last_err), [])
  | S slots' =>
      match one_attempt attempt rq with
      | Returned v => (Return v, [Sent attempt rq])
      | Propagated e => (Raise e, [Sent attempt rq])
      | RateLimited wait =>
          let '(o, evs) := attempts slots' (attempt + 1) last_err rq in
          (o, Sent attempt rq :: WarnRateLimited wait attempt :: Slept wait :: evs)
      | Caught e =>
          let '(o, evs) := attempts slots' (attempt + 1) (Some (exn_str e)) rq in
          (o, Sent attempt rq ::
              (if attempt <? retry_count
               then [Slept (Backoff attempt); WarnRetrying attempt e]
               else []) ++ evs)
      end
  end.

(** The loop over [headers_override.items()]: a [None] value pops the
    session header and remembers what was there, any other value goes
    to the per-request headers. *)
Fixpoint apply_overrides (ov : list (string * option string))
    (session : headers) (saved : list (string * option string))
    (kw : headers) : headers * list (string * option string) * headers :=
  match ov with
  | [] => (session, saved, kw)
  | (k, None) :: ov' =>
      apply_overrides ov' (delete k session)
        (dict_set k (session !! k) saved) kw
  | (k, Some v) :: ov' =>
      apply_overrides ov' session saved (<[k:=v]> kw)
  end.

(** The [finally] block. *)
Fixpoint restore (saved : list (string * option string))
    (session : headers) : headers :=
  match saved with
  | [] => session
  | (k, Some v) :: saved' => restore saved' (<[k:=v]> session)
  | (k, None) :: saved' => restore saved' session
  end.

(** [_request]: the outcome, the session headers afterwards, and what
    happened on the way. *)
Definition _request (method path : string)
    (headers_override : list (string * option string))
    (kw_headers : headers) (payload : req_body) (session : headers)
    : outcome response * headers * list io_event :=
  let url := base_url +:+ "/api/admin" +:+ path in
  let '(session1, saved, kw) :=
    apply_overrides headers_override session [] kw_headers in
  let rq := {| req_method := method; req_url := url;
               req_session_headers := session1; req_headers := kw;
               req_body_of := payload |} in
  let '(o, evs) := attempts (Z.to_nat retry_count) 1 None rq in
  (o, restore saved session1, evs).

(** [import_virtual_stock]: multipart form, Content-Type suppressed. *)
Definition import_virtual_stock (inventory_id : Z) (items : list string)
    (session : headers) : outcome response * headers * list io_event :=
  let content := String.concat (String (Ascii.ascii_of_nat 10) EmptyString) items in
  _request "POST" ("/virtual-inventories/" +:+ pretty inventory_id +:+ "/import")
    [("Content-Type", None)] ∅
    (FormBody [("import_type", "text"); ("content", content)]) session.

(** Every other operation calls [_request] without [headers_override]. *)
Definition plain_request (method path : string) (payload : req_body)
    (session : headers) : outcome response * headers * list io_event :=
  _request method path [] ∅ payload session.

Definition create_product (data : list (string * string)) :=
  plain_request "POST" "/products" (JsonBody data).

Definition list_products (page page_size : Z) :=
  plain_request "GET" "/products"
    (QueryParams [("page", pretty page); ("page_size", pretty page_size)]).

Definition create_virtual_inventory (data : list (string * string)) :=
  plain_request "POST" "/virtual-inventories" (JsonBody data).

Definition create_virtual_stock_item (inventory_id : Z) (content remark : string) :=
  plain_request "POST" ("/virtual-inventories/" +:+ pretty inventory_id +:+ "/stocks")
    (JsonBody (("content", content) ::
               (if decide (remark = "") then [] else [("remark", remark)]))).

Definition reserve_stock_item (inventory_id stock_id : Z) (remark : string) :=
  plain_request "POST"
    ("/virtual-inventories/" +:+ pretty inventory_id +:+ "/stocks/"
       +:+ pretty stock_id +:+ "/reserve")
    (JsonBody (if decide (remark = "") then [] else [("remark", remark)])).

Definition bind_virtual_inventory (product_id virtual_inventory_id : Z) :=
  plain_request "POST"
    ("/products/" +:+ pretty product_id +:+ "/virtual-inventory-bindings")
    (JsonBody [("virtual_inventory_id", pretty virtual_inventory_id)]).

Definition create_promo_code (data : list (string * string)) :=
  plain_request "POST" "/promo-codes" (JsonBody data).

(** The session headers each [session.request] of a trace ran under. *)
Definition sent_session_headers (evs : list io_event) : list headers :=
  omap (λ ev, match ev with
              | Sent _ rq => Some (req_session_headers rq)
              | _ => None
              end) evs.


Definition sleeps (evs : list io_event) : list delay :=
  omap (λ ev, match ev with Slept d => Some d | _ => None end) evs.




(** The requests of a trace, in the order they were sent. *)
Definition sent_requests (evs : list io_event) : list request :=
  omap (λ ev, match ev with Sent _ rq => Some rq | _ => None end) evs.

(** The attempts that end in [except RequestException]. *)
Definition is_caught (r : attempt_result) : bool :=
  match r with Caught _ => true | _ => false end.

(** [test_connection]: a one-row listing; any exception is logged and
    turned into [False]. *)
Definition test_connection (session : headers)
    : bool * headers * list io_event * option exn :=
  let '(o, session', evs) :=
    _request "GET" "/products" [] ∅
      (QueryParams [("page", "1"); ("page_size", "1")]) session in
  match o with
  | Return _ => (true, session', evs, None)
  | Raise e => (false, session', evs, Some e)      (* log.error(...) *)
  end.

End Request.

(** [self.session.headers.update({...})] in [__init__], over the headers
    a new [requests.Session] starts with. *)
Definition headers_after_init (defaults : headers) (api_key api_secret : string)
    : headers :=
  <["Content-Type" := "application/json"]>
    (<["X-API-Secret" := api_secret]> (<["X-API-Key" := api_key]> defaults)).


End Client.

(** * The migration engine *)

(** ** Source rows, options, statistics *)

(** A row of [carmis]: the content and the reusable ("loop") flag, as
    [c.get("carmi")] and [c.get("is_loop")] return them. *)
Record carmi_row := {
  carmi : option string;
  is_loop : option Z;
}.

(** Truthiness of an optional string: [None] and the empty string are falsy. *)
Definition truthy_str (o : option string) : bool :=
  match o with Some s => negb (bool_decide (s = "")) | None => false end.

(** [MigrationOptions]; the three stage switches carry the prefix [opt_]
    because the engine's methods have the same names. *)
Record MigrationOptions := {
  opt_migrate_products : bool;
  opt_migrate_carmis : bool;
  opt_migrate_coupons : bool;
  dry_run : bool;
  batch_size : Z;
  skip_disabled : bool;
  default_product_status : string;
}.

(** The same options run in the other mode. *)
Definition with_dry_run (b : bool) (o : MigrationOptions) : MigrationOptions :=
  {| opt_migrate_products := opt_migrate_products o;
     opt_migrate_carmis := opt_migrate_carmis o;
     opt_migrate_coupons := opt_migrate_coupons o;
     dry_run := b;
     batch_size := batch_size o;
     skip_disabled := skip_disabled o;
     default_product_status := default_product_status o |}.

(** [self.stats] *)
Record statistics := {
  products_created : nat;
  products_skipped : nat;
  products_failed : nat;
  vinv_created : nat;
  carmis_imported : nat;
  bindings_created : nat;
  coupons_created : nat;
  coupons_failed : nat;
}.

Definition initial_stats : statistics :=
  {| products_created := 0; products_skipped := 0; products_failed := 0;
     vinv_created := 0; carmis_imported := 0; bindings_created := 0;
     coupons_created := 0; coupons_failed := 0 |}.

(** The seven [self.stats[...] += n] statements of the engine; no
    statement of the source assigns to ["products_skipped"]. *)
Definition add_products_created (n : nat) (st : statistics) : statistics :=
  {| products_created := products_created st + n;
     products_skipped := products_skipped st;
     products_failed := products_failed st;
     vinv_created := vinv_created st;
     carmis_imported := carmis_imported st;
     bindings_created := bindings_created st;
     coupons_created := coupons_created st;
     coupons_failed := coupons_failed st |}.

Definition add_products_failed (n : nat) (st : statistics) : statistics :=
  {| products_created := products_created st;
     products_skipped := products_skipped st;
     products_failed := products_failed st + n;
     vinv_created := vinv_created st;
     carmis_imported := carmis_imported st;
     bindings_created := bindings_created st;
     coupons_created := coupons_created st;
     coupons_failed := coupons_failed st |}.

Definition add_vinv_created (n : nat) (st : statistics) : statistics :=
  {| products_created := products_created st;
     products_skipped := products_skipped st;
     products_failed := products_failed st;
     vinv_created := vinv_created st + n;
     carmis_imported := carmis_imported st;
     bindings_created := bindings_created st;
     coupons_created := coupons_created st;
     coupons_failed := coupons_failed st |}.

Definition add_carmis_imported (n : nat) (st : statistics) : statistics :=
  {| products_created := products_created st;
     products_skipped := products_skipped st;
     products_failed := products_failed st;
     vinv_created := vinv_created st;
     carmis_imported := carmis_imported st + n;
     bindings_created := bindings_created st;
     coupons_created := coupons_created st;
     coupons_failed := coupons_failed st |}.

Definition add_bindings_created (n : nat) (st : statistics) : statistics :=
  {| products_created := products_created st;
     products_skipped := products_skipped st;
     products_failed := products_failed st;
     vinv_created := vinv_created st;
     carmis_imported := carmis_imported st;
     bindings_created := bindings_created st + n;
     coupons_created := coupons_created st;
     coupons_failed := coupons_failed st |}.

Definition add_coupons_created (n : nat) (st : statistics) : statistics :=
  {| products_created := products_created st;
     products_skipped := products_skipped st;
     products_failed := products_failed st;
     vinv_created := vinv_created st;
     carmis_imported := carmis_imported st;
     bindings_created := bindings_created st;
     coupons_created := coupons_created st + n;
     coupons_failed := coupons_failed st |}.

Definition add_coupons_failed (n : nat) (st : statistics) : statistics :=
  {| products_created := products_created st;
     products_skipped := products_skipped st;
     products_failed := products_failed st;
     vinv_created := vinv_created st;
     carmis_imported := carmis_imported st;
     bindings_created := bindings_created st;
     coupons_created := coupons_created st;
     coupons_failed := coupons_failed st + n |}.

(** ** Python's [range] and slices *)

(** [list(range(start, stop, step))]; a zero step raises [ValueError]. *)
Definition py_range (start stop step : Z) : outcome (list Z) :=
  if step =? 0 then Raise (ValueError "range() arg 3 must not be zero")
  else
    let n :=
      if 0 <? step
      then (if start <? stop then (stop - start - 1) / step + 1 else 0)
      else (if stop <? start then (start - stop - 1) / (- step) + 1 else 0) in
    Return ((λ k : nat, start + Z.of_nat k * step) <$> seq 0 (Z.to_nat n)).

(** A slice bound normalised against the length, as [l[i:j]] does. *)
Definition slice_bound {A} (l : list A) (i : Z) : nat :=
  let len := Z.of_nat (length l) in
  Z.to_nat (if i <? 0 then Z.max 0 (i + len) else Z.min i len).

(** [l[i:j]] *)
Definition py_slice {A} (l : list A) (i j : Z) : list A :=
  take (slice_bound l j - slice_bound l i) (drop (slice_bound l i) l).

(** A row of [coupons]; [discount] and [ret] are kept as the database
    returns them and converted by [float] and [int] in the engine. *)
Record coupon_row (raw : Type) := {
  coupon_id : Z;
  coupon : string;
  discount : raw;
  ret : raw;
  is_open : option Z;
}.
Arguments coupon_id {raw} _.
Arguments coupon {raw} _.
Arguments discount {raw} _.
Arguments ret {raw} _.
Arguments is_open {raw} _.

(** The payload of [create_virtual_inventory]. *)
Record vinv_payload := {
  vinv_name : string;
  vinv_sku : string;
  vinv_description : string;
  vinv_is_active : bool;
}.

(** The payload of [create_promo_code]; [product_ids] is [None] when the
    key is not set. *)
Record promo_payload (float : Type) := {
  promo_code : string;
  promo_name : string;
  promo_description : string;
  discount_type : string;
  discount_value : float;
  total_quantity : Z;
  promo_status : string;
  product_ids : option (list Z);
  product_scope : string;
}.
Arguments promo_code {float} _.
Arguments promo_name {float} _.
Arguments promo_description {float} _.
Arguments discount_type {float} _.
Arguments discount_value {float} _.
Arguments total_quantity {float} _.
Arguments promo_status {float} _.
Arguments product_ids {float} _.
Arguments product_scope {float} _.

(** The content of [migration_mapping.json]. *)
Record mapping := {
  mapping_product_map : list (string * Z);
  mapping_virtual_inventory_map : list (string * Z);
}.

Inductive level : Type := INFO | WARNING | ERROR.

Inductive console_item : Type :=
| ConsoleRule (title : string)
| ConsolePrint (text : string)
| ConsoleTable (title : string) (rows : list (string * string)).

(** [{str(k): v for k, v in d.items()}] *)
Definition str_keys (d : list (Z * Z)) : list (string * Z) :=
  foldl (λ acc kv, dict_set (pretty kv.1) kv.2 acc) [] d.

(** The identifier written to the maps in a dry run. *)
Definition sentinel : Z := -1.

(** [if pid:] on an extracted identifier: the identifier when truthy. *)
Definition if_truthy (o : option Z) : option Z :=
  match o with
  | Some z => if z =? 0 then None else Some z
  | None => None
  end.

(** What the engine is handed from outside, over four types it only
    moves around (rows of [goods], target product payloads, raw database
    cells, Python floats): the two columns it reads from a goods row, the
    product transformer, the conversions [float] and [int], and the
    queries of [DujiaokaReader].  Every query may raise. *)
Record collaborators (goods product_payload raw float : Type) := {
  goods_id : goods → Z;                        (* goods["id"] *)
  gd_name : goods → string;                    (* goods["gd_name"] *)
  (** [_build_product_payload], which reads [default_product_status]
      from the options and may raise on a malformed row. *)
  _build_product_payload : string → goods → outcome product_payload;
  to_float : raw → outcome float;              (* float(x) *)
  to_int : raw → outcome Z;                    (* int(x) *)
  get_goods : bool → outcome (list goods);
  get_carmis_count : Z → outcome Z;
  get_carmis_by_goods : Z → outcome (list carmi_row);
  get_coupons : outcome (list (coupon_row raw));
  get_coupon_goods : Z → outcome (list Z);
  (** categories, goods, unsold carmis, coupons *)
  get_summary : outcome (Z * Z * Z * Z);
}.
Arguments goods_id {_ _ _ _} _.
Arguments gd_name {_ _ _ _} _.
Arguments _build_product_payload {_ _ _ _} _.
Arguments to_float {_ _ _ _} _.
Arguments to_int {_ _ _ _} _.
Arguments get_goods {_ _ _ _} _.
Arguments get_carmis_count {_ _ _ _} _.
Arguments get_carmis_by_goods {_ _ _ _} _.
Arguments get_coupons {_ _ _ _} _.
Arguments get_coupon_goods {_ _ _ _} _.
Arguments get_summary {_ _ _ _} _.

Section Engine.
Context {goods product_payload raw float : Type}.
Variable env : collaborators goods product_payload raw float.

(** The calls the engine makes on [self.client]. *)
Inductive call : Type :=
| CreateProduct (data : product_payload)
| CreateVirtualInventory (data : vinv_payload)
| ImportVirtualStock (inventory_id : Z) (items : list string)
| CreateVirtualStockItem (inventory_id : Z) (content remark : string)
| ReserveStockItem (inventory_id stock_id : Z) (remark : string)
| BindVirtualInventory (product_id virtual_inventory_id : Z)
| CreatePromoCode (data : promo_payload float).

(** A call together with what the client answered. *)
Definition event : Type := call * outcome response.

Inductive message : Type :=
| NoGoodsFound
| FoundGoods (n : nat)
| DryRunProduct (name : string) (gid : Z)
| CreatedProduct (name : string) (pid : Z)
| ProductNoId (name : string)
| FailedProduct (name : string) (gid : Z) (e : exn)
| NoProductsMapped
| NoCarmisFound
| FoundCarmis (n : nat)
| FailedCarmis (gid : Z) (e : exn)
| DryRunVinv (gid : Z) (n : nat)
| VinvNoId (gid : Z)
| CreatedVinv (vinv_id gid : Z)
| FailedBatch (batch_no vinv_id : Z) (e : exn)
| FailedLoopCarmi (vinv_id : Z) (e : exn)
| ImportedLoopCarmis (n : nat) (vinv_id : Z)
| BoundVinv (vinv_id pid : Z)
| FailedBind (vinv_id pid : Z) (e : exn)
| NoCouponsFound
| FoundCoupons (n : nat)
| DryRunPromo (code : string) (discount_value : float)
| CreatedPromo (code : string)
| FailedPromo (code : string) (cid : Z) (e : exn).

(** The engine object ([client], [opts], the two maps, [stats]) together
    with the world it acts on: the calls made on the client so far, the
    log, the console and the mapping file.  The client is a function of
    the calls answered so far and of the current call. *)
Record engine := {
  client : list event → call → outcome response;
  opts : MigrationOptions;
  product_map : list (Z * Z);
  vinv_map : list (Z * Z);
  stats : statistics;
  api_calls : list event;
  log : list (level * message);
  console : list console_item;
  mapping_file : option mapping;
}.

(** [MigrationEngine.__init__], in a world where nothing has happened. *)
Definition new_engine (c : list event → call → outcome response)
    (o : MigrationOptions) : engine :=
  {| client := c; opts := o; product_map := []; vinv_map := [];
     stats := initial_stats; api_calls := []; log := []; console := [];
     mapping_file := None |}.

Definition set_product_map (pm : list (Z * Z)) (s : engine) : engine :=
  {| client := client s; opts := opts s; product_map := pm;
     vinv_map := vinv_map s; stats := stats s; api_calls := api_calls s;
     log := log s; console := console s; mapping_file := mapping_file s |}.

Definition set_vinv_map (vm : list (Z * Z)) (s : engine) : engine :=
  {| client := client s; opts := opts s; product_map := product_map s;
     vinv_map := vm; stats := stats s; api_calls := api_calls s;
     log := log s; console := console s; mapping_file := mapping_file s |}.

Definition set_stats (st : statistics) (s : engine) : engine :=
  {| client := client s; opts := opts s; product_map := product_map s;
     vinv_map := vinv_map s; stats := st; api_calls := api_calls s;
     log := log s; console := console s; mapping_file := mapping_file s |}.

Definition push_call (ev : event) (s : engine) : engine :=
  {| client := client s; opts := opts s; product_map := product_map s;
     vinv_map := vinv_map s; stats := stats s;
     api_calls := api_calls s ++ [ev];
     log := log s; console := console s; mapping_file := mapping_file s |}.

Definition push_log (l : level) (m : message) (s : engine) : engine :=
  {| client := client s; opts := opts s; product_map := product_map s;
     vinv_map := vinv_map s; stats := stats s; api_calls := api_calls s;
     log := log s ++ [(l, m)]; console := console s;
     mapping_file := mapping_file s |}.

Definition push_console (c : console_item) (s : engine) : engine :=
  {| client := client s; opts := opts s; product_map := product_map s;
     vinv_map := vinv_map s; stats := stats s; api_calls := api_calls s;
     log := log s; console := console s ++ [c];
     mapping_file := mapping_file s |}.

Definition set_mapping_file (m : mapping) (s : engine) : engine :=
  {| client := client s; opts := opts s; product_map := product_map s;
     vinv_map := vinv_map s; stats := stats s; api_calls := api_calls s;
     log := log s; console := console s; mapping_file := Some m |}.

(** ** The engine monad: state and exceptions *)

Definition M (A : Type) : Type := engine → outcome A * engine.

Definition pure {A} (a : A) : M A := λ s, (Return a, s).

Definition bind {A B} (m : M A) (k : A → M B) : M B :=
  λ s, match m s with
       | (Return a, s') => k a s'
       | (Raise e, s') => (Raise e, s')
       end.

(** [try: m except Exception as e: h e] *)
Definition try_except {A} (m : M A) (h : exn → M A) : M A :=
  λ s, match m s with
       | (Return a, s') => (Return a, s')
       | (Raise e, s') => h e s'
       end.

Definition lift {A} (o : outcome A) : M A := λ s, (o, s).
Definition gets {A} (f : engine → A) : M A := λ s, (Return (f s), s).
Definition modify (f : engine → engine) : M unit := λ s, (Return tt, f s).

(** The state a computation leaves behind, raised or not. *)
Definition exec {A} (m : M A) (s : engine) : engine := (m s).2.

Declare Scope engine_scope.
Delimit Scope engine_scope with engine.
Notation "'let*' x ':=' m 'in' k" := (bind m (λ x, k))
  (at level 10, x name, m at level 100, k at level 200) : engine_scope.
Notation "m '>>' k" := (bind m (λ _, k))
  (at level 65, right associativity) : engine_scope.
Local Open Scope engine_scope.

(** [for a in l: body a] *)
Fixpoint for_each {A} (l : list A) (body : A → M unit) : M unit :=
  match l with
  | [] => pure tt
  | a :: l' => body a >> for_each l' body
  end.

Definition log_info (m : message) : M unit := modify (push_log INFO m).
Definition log_warning (m : message) : M unit := modify (push_log WARNING m).
Definition log_error (m : message) : M unit := modify (push_log ERROR m).
Definition count (f : statistics → statistics) : M unit :=
  modify (λ s, set_stats (f (stats s)) s).
Definition console_print (c : console_item) : M unit := modify (push_console c).

(** A method call on [self.client]: the answer is recorded. *)
Definition call_client (c : call) : M response :=
  λ s, let o := client s (api_calls s) c in (o, push_call (c, o) s).

(** ** Stage 1: products *)

(** The body of the [try] in [migrate_products]. *)
Definition create_one_product (g : goods) : M unit :=
  let gid := goods_id env g in
  let name := gd_name env g in
  let* o := gets opts in
  let* payload := lift (_build_product_payload env (default_product_status o) g) in
  if dry_run o then
    log_info (DryRunProduct name gid) >>
    modify (λ s, set_product_map (dict_set gid sentinel (product_map s)) s) >>
    count (add_products_created 1)
  else
    let* result := call_client (CreateProduct payload) in
    let* pid := lift (extract_id result) in
    match if_truthy pid with
    | Some pid =>
        modify (λ s, set_product_map (dict_set gid pid (product_map s)) s) >>
        count (add_products_created 1) >>
        log_info (CreatedProduct name pid)
    | None =>
        log_warning (ProductNoId name) >>
        count (add_products_failed 1)
    end.

(** One iteration of the loop over [goods_list]: the [try] and its
    [except Exception]. *)
Definition migrate_product (g : goods) : M unit :=
  try_except (create_one_product g)
    (λ e, log_error (FailedProduct (gd_name env g) (goods_id env g) e) >>
          count (add_products_failed 1)).

Definition migrate_products : M unit :=
  let* o := gets opts in
  let* goods_list := lift (get_goods env (skip_disabled o)) in
  match goods_list with
  | [] => log_info NoGoodsFound
  | _ =>
      log_info (FoundGoods (length goods_list)) >>
      for_each goods_list migrate_product
  end.

(** ** Stage 2: carmis -> virtual inventories *)

Definition loop_remark : string := "[循环卡密] 可重复使用".
Definition reserve_remark : string := "循环卡密-已预留".

Definition vinv_data (goods_id : Z) : vinv_payload :=
  {| vinv_name := "djk-" +:+ pretty goods_id +:+ " 卡密库存";
     vinv_sku := "djk-vinv-" +:+ pretty goods_id;
     vinv_description := "从独角数卡商品 #" +:+ pretty goods_id +:+ " 迁移的卡密";
     vinv_is_active := true |}.

(** [[c["carmi"] for c in carmis if c.get("carmi") and not c.get("is_loop")]] *)
Definition normal_items (carmis : list carmi_row) : list string :=
  (λ c, default "" (carmi c)) <$>
    filter (λ c, truthy_str (carmi c) && negb (truthy (is_loop c)) = true) carmis.

(** [[c for c in carmis if c.get("carmi") and c.get("is_loop")]] *)
Definition loop_items (carmis : list carmi_row) : list carmi_row :=
  filter (λ c, truthy_str (carmi c) && truthy (is_loop c) = true) carmis.

(** 2a: one bulk import, inside its own [try]. *)
Definition import_batch (vinv_id : Z) (normal : list string) (i : Z) : M unit :=
  let* o := gets opts in
  let batch := py_slice normal i (i + batch_size o) in
  try_except
    (call_client (ImportVirtualStock vinv_id batch) >>
     count (add_carmis_imported (length batch)))
    (λ e, log_error (FailedBatch (i / batch_size o + 1) vinv_id e)).

(** 2b: one reusable item, created and then reserved, inside its own [try]. *)
Definition import_loop_item (vinv_id : Z) (c : carmi_row) : M unit :=
  try_except
    (let* result :=
       call_client (CreateVirtualStockItem vinv_id (default "" (carmi c)) loop_remark) in
     let* stock_id := lift (extract_stock_id result) in
     match if_truthy stock_id with
     | Some stock_id =>
         call_client (ReserveStockItem vinv_id stock_id reserve_remark) >> pure tt
     | None => pure tt
     end >>
     count (add_carmis_imported 1))
    (λ e, log_error (FailedLoopCarmi vinv_id e)).

(** 3: the binding, only for a positive product identifier. *)
Definition bind_inventory (product_id vinv_id : Z) : M unit :=
  if 0 <? product_id then
    try_except
      (call_client (BindVirtualInventory product_id vinv_id) >>
       count (add_bindings_created 1) >>
       log_info (BoundVinv vinv_id product_id))
      (λ e, log_error (FailedBind vinv_id product_id e))
  else pure tt.

(** Steps 2 and 3 of [_migrate_carmis_for_goods], once the inventory
    exists. *)
Definition import_and_bind (product_id vinv_id : Z) (carmis : list carmi_row) : M unit :=
  let* o := gets opts in
  let normal := normal_items carmis in
  let loops := loop_items carmis in
  let* starts := lift (py_range 0 (Z.of_nat (length normal)) (batch_size o)) in
  for_each starts (import_batch vinv_id normal) >>
  for_each loops (import_loop_item vinv_id) >>
  match loops with
  | [] => pure tt
  | _ => log_info (ImportedLoopCarmis (length loops) vinv_id)
  end >>
  bind_inventory product_id vinv_id.

Definition _migrate_carmis_for_goods (goods_id product_id : Z) : M unit :=
  let* carmis := lift (get_carmis_by_goods env goods_id) in
  match carmis with
  | [] => pure tt
  | _ =>
      let* o := gets opts in
      if dry_run o then
        log_info (DryRunVinv goods_id (length carmis)) >>
        modify (λ s, set_vinv_map (dict_set goods_id sentinel (vinv_map s)) s) >>
        count (add_vinv_created 1) >>
        count (add_carmis_imported (length carmis))
      else
        let* result := call_client (CreateVirtualInventory (vinv_data goods_id)) in
        let* vinv_id := lift (extract_id result) in
        match if_truthy vinv_id with
        | None => log_error (VinvNoId goods_id)
        | Some vinv_id =>
            modify (λ s, set_vinv_map (dict_set goods_id vinv_id (vinv_map s)) s) >>
            count (add_vinv_created 1) >>
            log_info (CreatedVinv vinv_id goods_id) >>
            import_and_bind product_id vinv_id carmis
        end
  end.

(** [[(gid, pid) for gid, pid in product_map.items()
      if self.reader.get_carmis_count(gid) > 0]] *)
Fixpoint goods_with_carmis (items : list (Z * Z)) : outcome (list (Z * Z)) :=
  match items with
  | [] => Return []
  | (gid, pid) :: items' =>
      match get_carmis_count env gid with
      | Raise e => Raise e
      | Return cnt =>
          match goods_with_carmis items' with
          | Raise e => Raise e
          | Return rest => Return (if 0 <? cnt then (gid, pid) :: rest else rest)
          end
      end
  end.

(** One iteration of the loop of [migrate_carmis]. *)
Definition migrate_carmis_unit (item : Z * Z) : M unit :=
  try_except (_migrate_carmis_for_goods item.1 item.2)
    (λ e, log_error (FailedCarmis item.1 e)).

Definition migrate_carmis : M unit :=
  let* pm := gets product_map in
  match pm with
  | [] => log_warning NoProductsMapped
  | _ =>
      let* with_carmis := lift (goods_with_carmis pm) in
      match with_carmis with
      | [] => log_info NoCarmisFound
      | _ =>
          log_info (FoundCarmis (length with_carmis)) >>
          for_each with_carmis migrate_carmis_unit
      end
  end.

(** ** Stage 3: coupons -> promo codes *)

(** [[product_map[gid] for gid in djk_goods_ids
      if gid in product_map and product_map[gid] > 0]] *)
Definition al_product_ids (pm : list (Z * Z)) (djk_goods_ids : list Z) : list Z :=
  omap (λ gid, match dict_get gid pm with
               | Some pid => if 0 <? pid then Some pid else None
               | None => None
               end) djk_goods_ids.

(** The [payload] dictionary of [migrate_coupons], product scope included. *)
Definition coupon_payload (c : coupon_row raw) (al_ids : list Z)
    (value : float) (quantity : Z) : promo_payload float :=
  {| promo_code := coupon c;
     promo_name := "djk-coupon-" +:+ pretty (coupon_id c);
     promo_description :=
       "从独角数卡迁移的优惠码 (原ID: " +:+ pretty (coupon_id c) +:+ ")";
     discount_type := "fixed";
     discount_value := value;
     total_quantity := quantity;
     promo_status := if bool_decide (is_open c = Some 1) then "active" else "inactive";
     product_ids := match al_ids with [] => None | _ => Some al_ids end;
     product_scope := match al_ids with [] => "all" | _ => "specific" end |}.

(** The body of the [try] in [migrate_coupons]. *)
Definition create_one_coupon (c : coupon_row raw) : M unit :=
  let* djk_goods_ids := lift (get_coupon_goods env (coupon_id c)) in
  let* pm := gets product_map in
  let al_ids := al_product_ids pm djk_goods_ids in
  let* value := lift (to_float env (discount c)) in
  let* quantity := lift (to_int env (ret c)) in
  let payload := coupon_payload c al_ids value quantity in
  let* o := gets opts in
  if dry_run o then
    log_info (DryRunPromo (coupon c) (discount_value payload)) >>
    count (add_coupons_created 1)
  else
    call_client (CreatePromoCode payload) >>
    count (add_coupons_created 1) >>
    log_info (CreatedPromo (coupon c)).

(** One iteration of the loop over [coupons]. *)
Definition migrate_coupon (c : coupon_row raw) : M unit :=
  try_except (create_one_coupon c)
    (λ e, log_error (FailedPromo (coupon c) (coupon_id c) e) >>
          count (add_coupons_failed 1)).

Definition migrate_coupons : M unit :=
  let* coupons := lift (get_coupons env) in
  match coupons with
  | [] => log_info NoCouponsFound
  | _ =>
      log_info (FoundCoupons (length coupons)) >>
      for_each coupons migrate_coupon
  end.

(** ** The run and its report *)

Definition newline : string := String (Ascii.ascii_of_nat 10) EmptyString.

(** The rows of the result table, in display order. *)
Definition summary_rows (st : statistics) : list (string * string) :=
  [ ("商品创建成功", pretty (products_created st));
    ("商品跳过", pretty (products_skipped st));
    ("商品创建失败", pretty (products_failed st));
    ("虚拟库存创建", pretty (vinv_created st));
    ("卡密导入", pretty (carmis_imported st));
    ("库存绑定", pretty (bindings_created st));
    ("优惠码创建成功", pretty (coupons_created st));
    ("优惠码创建失败", pretty (coupons_failed st)) ].

(** [print_summary]: the result table, then [migration_mapping.json];
    opening and writing the file is taken to succeed. *)
Definition print_summary : M unit :=
  console_print (ConsoleRule "[bold green]迁移完成") >>
  let* st := gets stats in
  console_print (ConsoleTable "迁移结果统计" (summary_rows st)) >>
  let* pm := gets product_map in
  let* vm := gets vinv_map in
  modify (set_mapping_file
            {| mapping_product_map := str_keys pm;
               mapping_virtual_inventory_map := str_keys vm |}) >>
  console_print
    (ConsolePrint (newline +:+ "ID 映射表已保存到: [bold]migration_mapping.json[/bold]")).

Definition run : M unit :=
  console_print (ConsoleRule "[bold blue]开始迁移 独角数卡 -> AuraLogic") >>
  let* o := gets opts in
  (if dry_run o
   then console_print
          (ConsolePrint ("[yellow]** DRY RUN 模式 - 不会实际写入数据 **[/yellow]" +:+ newline))
   else pure tt) >>
  let* summary := lift (get_summary env) in
  let '(categories, n_goods, unsold_carmis, n_coupons) := summary in
  console_print
    (ConsoleTable "独角数卡数据概览"
       [ ("商品分类", pretty categories); ("商品", pretty n_goods);
         ("未售卡密", pretty unsold_carmis); ("优惠码", pretty n_coupons) ]) >>
  console_print (ConsolePrint "") >>
  (if opt_migrate_products o
   then console_print (ConsoleRule "[bold]Step 1: 迁移商品") >>
        migrate_products >> console_print (ConsolePrint "")
   else pure tt) >>
  (if opt_migrate_carmis o
   then console_print (ConsoleRule "[bold]Step 2: 迁移卡密 -> 虚拟库存") >>
        migrate_carmis >> console_print (ConsolePrint "")
   else pure tt) >>
  (if opt_migrate_coupons o
   then console_print (ConsoleRule "[bold]Step 3: 迁移优惠码 -> 促销码") >>
        migrate_coupons >> console_print (ConsolePrint "")
   else pure tt) >>
  print_summary.

(** ** Vocabulary for the statements below *)


(** The contents of the bulk-import calls of a trace, in call order. *)
Definition bulk_batches (evs : list event) : list (list string) :=
  omap (λ ev : event, match ev.1 with
                      | ImportVirtualStock _ items => Some items
                      | _ => None
                      end) evs.

(** The contents created one at a time, in call order. *)
Definition created_contents (evs : list event) : list string :=
  omap (λ ev : event, match ev.1 with
                      | CreateVirtualStockItem _ content _ => Some content
                      | _ => None
                      end) evs.

(** In a trace, every single-item creation whose answer carries a
    truthy stock identifier is followed at once by the reservation of
    that item in the same inventory. *)
Definition reserve_follows_create (evs : list event) : Prop :=
  ∀ (i : nat) vinv_id content remark r o stock_id,
    evs !! i = Some (CreateVirtualStockItem vinv_id content remark, Return r) →
    extract_stock_id r = Return o → if_truthy o = Some stock_id →
    ∃ answer,
      evs !! S i = Some (ReserveStockItem vinv_id stock_id reserve_remark, answer).

(** The payloads of the create-promo-code calls of a trace. *)
Definition promo_payloads (evs : list event) : list (promo_payload float) :=
  omap (λ ev : event, match ev.1 with
                      | CreatePromoCode data => Some data
                      | _ => None
                      end) evs.

(** A source product counts as migrated when the product map sends it
    to a real target identifier, that is a positive one. *)
Definition is_migrated (pm : list (Z * Z)) (gid : Z) : bool :=
  match dict_get gid pm with
  | Some pid => 0 <? pid
  | None => false
  end.

(** The mapped identifiers of the migrated products among [gids]. *)
Definition migrated_ids (pm : list (Z * Z)) (gids : list Z) : list Z :=
  (λ gid, default 0 (dict_get gid pm)) <$> filter (λ gid, is_migrated pm gid = true) gids.

(** A client that always succeeds: every call returns, creations carry
    a positive identifier, and the answer to a single-item creation can
    be read for its stock identifier. *)
Definition always_succeeds (c : list event → call → outcome response) : Prop :=
  ∀ history cl, ∃ r,
    c history cl = Return r ∧
    match cl with
    | CreateProduct _ | CreateVirtualInventory _ =>
        ∃ o id, extract_id r = Return o ∧ if_truthy o = Some id ∧ 0 < id
    | CreateVirtualStockItem _ _ _ => raised (extract_stock_id r) = false
    | _ => True
    end.

(** Every stock item of the source has a non-empty content. *)
Definition every_item_has_content : Prop :=
  ∀ gid carmis, get_carmis_by_goods env gid = Return carmis →
    Forall (λ c, truthy_str (carmi c) = true) carmis.

(** The queries made outside any [try] all answer: the overview, the
    goods, the coupons and the per-product counts. *)
Definition stage_queries_succeed : Prop :=
  raised (get_summary env) = false ∧
  (∀ skip, raised (get_goods env skip) = false) ∧
  (∀ gid, raised (get_carmis_count env gid) = false) ∧
  raised (get_coupons env) = false.

(** ** Vocabulary for the proofs *)

(** [P] is kept by [m], whether [m] returns or raises. *)
Definition inv (P : engine → Prop) {A} (m : M A) : Prop :=
  ∀ s, P s → P (m s).2.

(** From a state in [P], when [m] returns it leaves a state in [Q]. *)
Definition post (P : engine → Prop) {A} (m : M A) (Q : engine → Prop) : Prop :=
  ∀ s a s', P s → m s = (Return a, s') → Q s'.

(** [m] never raises. *)
Definition returns {A} (m : M A) : Prop := ∀ s, raised (m s).1 = false.

(** What a run never breaks, relative to the state [s0] it started
    from: the client and the options stay, products_skipped stays,
    the keys of both maps stay distinct, and in a dry run no call is
    made, no binding is counted and only the sentinel is written. *)
Definition engine_inv (s0 s : engine) : Prop :=
  client s = client s0 ∧ opts s = opts s0 ∧
  products_skipped (stats s) = products_skipped (stats s0) ∧
  (NoDup (dict_keys (product_map s0)) → NoDup (dict_keys (product_map s))) ∧
  (NoDup (dict_keys (vinv_map s0)) → NoDup (dict_keys (vinv_map s))) ∧
  (dry_run (opts s0) = true →
     api_calls s = api_calls s0 ∧
     bindings_created (stats s) = bindings_created (stats s0) ∧
     (Forall (λ v, v = sentinel) (product_map s0).*2 →
      Forall (λ v, v = sentinel) (product_map s).*2) ∧
     (Forall (λ v, v = sentinel) (vinv_map s0).*2 →
      Forall (λ v, v = sentinel) (vinv_map s).*2)).

(** The counters a dry run and a commit run share; carmis_imported is
    compared only under [strong]. *)
Definition same_counters (strong : Prop) (st1 st2 : statistics) : Prop :=
  products_created st1 = products_created st2 ∧
  products_skipped st1 = products_skipped st2 ∧
  products_failed st1 = products_failed st2 ∧
  vinv_created st1 = vinv_created st2 ∧
  coupons_created st1 = coupons_created st2 ∧
  coupons_failed st1 = coupons_failed st2 ∧
  (strong → carmis_imported st1 = carmis_imported st2).

(** A state [s1] of the dry run next to a state [s2] of the commit run
    of the same options [o] against the client [c]. *)
Definition paired_states (c : list event → call → outcome response)
    (o : MigrationOptions) (strong : Prop) (s1 s2 : engine) : Prop :=
  opts s1 = with_dry_run true o ∧ opts s2 = with_dry_run false o ∧
  client s2 = c ∧
  dict_keys (product_map s1) = dict_keys (product_map s2) ∧
  same_counters strong (stats s1) (stats s2).

(** From paired states, [m1] and [m2] end alike, in paired states. *)
Definition simulates (c : list event → call → outcome response)
    (o : MigrationOptions) (strong : Prop) {A} (m1 m2 : M A) : Prop :=
  ∀ s1 s2, paired_states c o strong s1 s2 →
    (m1 s1).1 = (m2 s2).1 ∧ paired_states c o strong (m1 s1).2 (m2 s2).2.

(** ** More vocabulary *)

(** A log entry above INFO. *)
Definition is_alarm (l : level) : bool :=
  match l with INFO => false | WARNING | ERROR => true end.

(** The number of warnings and errors in a log. *)
Definition alarms (entries : list (level * message)) : nat :=
  length (filter (λ entry, is_alarm entry.1 = true) entries).

(** The create-product call a row leads to in commit mode, if its
    payload can be built. *)
Definition create_call_of (status : string) (g : goods) : option call :=
  match _build_product_payload env status g with
  | Return payload => Some (CreateProduct payload)
  | Raise _ => None
  end.

(** The create-promo-code call a coupon leads to in commit mode against
    the product map [pm], if its references can be read and its two
    numbers converted. *)
Definition promo_call_of (pm : list (Z * Z)) (c : coupon_row raw) : option call :=
  match get_coupon_goods env (coupon_id c),
        to_float env (discount c), to_int env (ret c) with
  | Return gids, Return v, Return q =>
      Some (CreatePromoCode (coupon_payload c (al_product_ids pm gids) v q))
  | _, _, _ => None
  end.

(** The condition of the comprehension in [migrate_carmis], for an entry
    whose count query answers. *)
Definition has_carmis (item : Z * Z) : bool :=
  match get_carmis_count env item.1 with
  | Return cnt => 0 <? cnt
  | Raise _ => false
  end.

(** The three phases of a product's stock migration after the inventory
    exists, as predicates on the calls made on inventory [vinv_id]. *)
Definition is_bulk_import (vinv_id : Z) (ev : event) : Prop :=
  ∃ items, ev.1 = ImportVirtualStock vinv_id items.

Definition is_item_call (vinv_id : Z) (ev : event) : Prop :=
  (∃ content, ev.1 = CreateVirtualStockItem vinv_id content loop_remark) ∨
  (∃ stock_id, ev.1 = ReserveStockItem vinv_id stock_id reserve_remark).

Definition is_promo_call (ev : event) : Prop :=
  ∃ data, ev.1 = CreatePromoCode data.

(** The eight counters of [st2] are at least those of [st1]. *)
Definition counters_le (st1 st2 : statistics) : Prop :=
  (products_created st1 ≤ products_created st2)%nat ∧
  (products_skipped st1 ≤ products_skipped st2)%nat ∧
  (products_failed st1 ≤ products_failed st2)%nat ∧
  (vinv_created st1 ≤ vinv_created st2)%nat ∧
  (carmis_imported st1 ≤ carmis_imported st2)%nat ∧
  (bindings_created st1 ≤ bindings_created st2)%nat ∧
  (coupons_created st1 ≤ coupons_created st2)%nat ∧
  (coupons_failed st1 ≤ coupons_failed st2)%nat.

(** The exceptions the reader raises on the queries made outside any
    [try]. *)
Definition stage_query_raises (e : exn) : Prop :=
  get_summary env = Raise e ∨
  (∃ skip, get_goods env skip = Raise e) ∨
  (∃ gid, get_carmis_count env gid = Raise e) ∨
  get_coupons env = Raise e.

(** When [m] raises from a state in [P], the exception is in [E] and
    the state left behind is in [Q]. *)
Definition on_raise (P : engine → Prop) {A} (m : M A)
    (E : exn → Prop) (Q : engine → Prop) : Prop :=
  ∀ s e s', P s → m s = (Raise e, s') → E e ∧ Q s'.

(** What a run may only add to, relative to the state [s0] it began
    in: the calls, the log, the console, the counters and the keys of
    both maps. *)
Definition grown_from (s0 s : engine) : Prop :=
  api_calls s0 `prefix_of` api_calls s ∧
  log s0 `prefix_of` log s ∧
  console s0 `prefix_of` console s ∧
  counters_le (stats s0) (stats s) ∧
  dict_keys (product_map s0) ⊆ dict_keys (product_map s) ∧
  dict_keys (vinv_map s0) ⊆ dict_keys (vinv_map s).

(** Every source product with an inventory entry has a product entry. *)
Definition inventories_are_mapped (s : engine) : Prop :=
  dict_keys (vinv_map s) ⊆ dict_keys (product_map s).

(** The products-skipped cell of the last result table on the console. *)
Definition reported_products_skipped (s : engine) : option string :=
  last (omap (λ c, match c with
                   | ConsoleTable title rows =>
                       if decide (title = "迁移结果统计")
                       then dict_get "商品跳过" rows else None
                   | _ => None
                   end) (console s)).
End Engine.

(** * The product transformer

    [MigrationEngine._build_product_payload] reads a row of [goods] as
    pymysql's [DictCursor] returns it: a dictionary from column names to
    Python values.  The values the function can tell apart are [None],
    integers, booleans, strings and lists; every other object (a
    [Decimal], a [float], a [dict] parsed from JSON, ...) is opaque, and
    what Python does with it is a parameter, as are [str.strip],
    [float], [int] and [json.loads]. *)
Module Transform.

(** What [json.loads] does with a string: it returns a value, raises
    [JSONDecodeError], or raises something the transformer does not
    catch (a [RecursionError] on deeply nested input). *)
Inductive loaded (value : Type) : Type :=
| Loaded (v : value)
| DecodeError
| LoadRaises (e : exn).
Arguments Loaded {value} v.
Arguments DecodeError {value}.
Arguments LoadRaises {value} e.

Section Build.
Context {opaque float : Type}.

#[warnings="-register-all"]
Inductive pyval : Type :=
| PyNone
| PyInt (z : Z)
| PyBool (b : bool)
| PyStr (s : string)
| PyList (items : list pyval)
| PyOther (x : opaque).

(** [x == n] for an opaque [x] and an integer [n] *)
Variable other_eq_int : opaque → Z → bool.
(** [bool(x)] *)
Variable other_truthy : opaque → bool.
(** [x > 0] *)
Variable other_gt_zero : opaque → outcome bool.
(** the exception [x.split(",")] raises: no opaque object splits *)
Variable other_split : opaque → exn.
(** [str(x)] for an opaque object and for a list *)
Variable other_str : opaque → string.
Variable list_str : list pyval → string.
(** [t.strip()] *)
Variable strip : string → string.
(** [float(v)] and [int(v)] *)
Variable to_float : pyval → outcome float.
Variable to_int : pyval → outcome Z.
(** [json.loads(s)] *)
Variable json_loads : string → loaded pyval.

(** A row of [goods]. *)
Definition row : Type := list (string * pyval).

(** [goods[key]] *)
Definition item (goods : row) (key : string) : outcome pyval :=
  match dict_get key goods with
  | Some v => Return v
  | None => Raise (OtherError ("'" +:+ key +:+ "'"))      (* KeyError *)
  end.

(** [goods.get(key, default)] *)
Definition get (goods : row) (key : string) (default : pyval) : pyval :=
  match dict_get key goods with
  | Some v => v
  | None => default
  end.

(** [v == n] *)
Definition eq_int (v : pyval) (n : Z) : bool :=
  match v with
  | PyInt z => z =? n
  | PyBool b => (if b then 1 else 0) =? n
  | PyOther x => other_eq_int x n
  | PyNone | PyStr _ | PyList _ => false
  end.

(** [bool(v)] *)
Definition truthy_val (v : pyval) : bool :=
  match v with
  | PyNone => false
  | PyInt z => negb (z =? 0)
  | PyBool b => b
  | PyStr s => negb (bool_decide (s = ""))
  | PyList items => negb (bool_decide (items = []))
  | PyOther x => other_truthy x
  end.

Definition type_name (v : pyval) : string :=
  match v with
  | PyNone => "NoneType"
  | PyInt _ => "int"
  | PyBool _ => "bool"
  | PyStr _ => "str"
  | PyList _ => "list"
  | PyOther _ => "object"
  end.

(** [v > 0]; [TypeError] for [None], strings and lists *)
Definition gt_zero (v : pyval) : outcome bool :=
  match v with
  | PyInt z => Return (0 <? z)
  | PyBool b => Return b
  | PyOther x => other_gt_zero x
  | PyNone | PyStr _ | PyList _ =>
      Raise (OtherError ("'>' not supported between instances of '"
                           +:+ type_name v +:+ "' and 'int'"))
  end.

(** [str(v)], as an f-string formats [v] *)
Definition py_str (v : pyval) : string :=
  match v with
  | PyNone => "None"
  | PyInt z => pretty z
  | PyBool b => if b then "True" else "False"
  | PyStr s => s
  | PyList items => list_str items
  | PyOther x => other_str x
  end.

(** [s.split(",")] *)
Fixpoint split_comma (s : string) : list string :=
  match s with
  | EmptyString => [EmptyString]
  | String c s' =>
      if decide (String c EmptyString = ",") then EmptyString :: split_comma s'
      else match split_comma s' with
           | piece :: pieces => String c piece :: pieces
           | [] => [String c EmptyString]
           end
  end.

(** [v.split(",")] *)
Definition split (v : pyval) : outcome (list string) :=
  match v with
  | PyStr s => Return (split_comma s)
  | PyOther x => Raise (other_split x)
  | PyNone | PyInt _ | PyBool _ | PyList _ =>
      Raise (AttributeError ("'" +:+ type_name v +:+ "' object has no attribute 'split'"))
  end.

(** [[t.strip() for t in pieces if t.strip()]] *)
Definition stripped (pieces : list string) : list string :=
  filter (λ t, t ≠ "") (strip <$> pieces).

(** [[{"url": p, "is_primary": i == 0} for i, p in enumerate(pics) if p]] *)
Definition images_of_list (pics : list pyval) : list (pyval * bool) :=
  omap (λ ip : nat * pyval,
          if truthy_val ip.2 then Some (ip.2, bool_decide (ip.1 = 0%nat)) else None)
       (imap pair pics).

(** The block that sets [payload["images"]]: [None] when the key is
    not set.  The [try] catches [JSONDecodeError] and falls back to the
    raw value; anything else [json.loads] raises leaves the function. *)
Definition images_of (goods : row) : outcome (option (list (pyval * bool))) :=
  let picture := get goods "picture" PyNone in
  if truthy_val picture then
    let pics := match picture with
                | PyStr s => json_loads s
                | _ => Loaded picture
                end in
    match pics with
    | Loaded (PyList items) => Return (Some (images_of_list items))
    | Loaded (PyStr s) =>
        Return (if bool_decide (s = "") then None else Some [(PyStr s, true)])
    | Loaded _ => Return None
    | DecodeError => Return (Some [(picture, true)])
    | LoadRaises e => Raise e
    end
  else Return None.

Definition remark_part (goods : row) (key label : string) : list string :=
  let v := get goods key PyNone in
  if truthy_val v then [label +:+ py_str v] else [].

(** [remark_parts] *)
Definition remark_parts (goods : row) : list string :=
  remark_part goods "buy_prompt" "[购买提示] " ++
  remark_part goods "wholesale_price_cnf" "[批发价配置] " ++
  remark_part goods "other_ipu_cnf" "[自定义输入框] " ++
  remark_part goods "api_hook" "[API Hook] ".

Record product := {
  sku : string;
  name : pyval;
  product_type : string;
  short_description : pyval;
  description : pyval;
  category : pyval;
  tags : list string;
  price : float;
  original_price : float;
  stock : Z;
  sort_order : Z;
  status : string;
  auto_delivery : bool;
  max_purchase_limit : option pyval;
  images : option (list (pyval * bool));
  remark : option string;
}.

(** The [status] computed before the payload is assembled. *)
Definition status_of (default_product_status : string) (goods : row) : string :=
  if eq_int (get goods "is_open" (PyInt 1)) 0
     || eq_int (get goods "category_is_open" (PyInt 1)) 0
  then "inactive" else default_product_status.

Definition and_then {A B} (o : outcome A) (k : A → outcome B) : outcome B :=
  match o with
  | Return a => k a
  | Raise e => Raise e
  end.

(** [_build_product_payload]; the keys of the dictionary literal are
    evaluated in the order they are written. *)
Definition _build_product_payload (default_product_status : string)
    (goods : row) : outcome product :=
  and_then (item goods "type") (λ type,
  let is_virtual := eq_int type 1 in
  let status := status_of default_product_status goods in
  and_then (item goods "id") (λ id,
  and_then (item goods "gd_name") (λ gd_name,
  let keywords := get goods "gd_keywords" PyNone in
  and_then (split (if truthy_val keywords then keywords else PyStr "")) (λ pieces,
  and_then (to_float (get goods "actual_price" (PyInt 0))) (λ price,
  and_then (to_float (get goods "retail_price" (PyInt 0))) (λ original_price,
  and_then (to_int (get goods "in_stock" (PyInt 0))) (λ stock,
  and_then (to_int (get goods "ord" (PyInt 1))) (λ sort_order,
  let buy_limit_num := get goods "buy_limit_num" (PyInt 0) in
  and_then (gt_zero buy_limit_num) (λ limited,
  and_then (images_of goods) (λ images,
  let parts := remark_parts goods in
  Return
    {| sku := "djk-" +:+ py_str id;
       name := gd_name;
       product_type := if is_virtual then "virtual" else "physical";
       short_description := get goods "gd_description" (PyStr "");
       description := get goods "description" (PyStr "");
       category := get goods "category_name" (PyStr "未分类");
       tags := stripped pieces;
       price := price;
       original_price := original_price;
       stock := stock;
       sort_order := sort_order;
       status := status;
       auto_delivery := is_virtual;
       max_purchase_limit := if limited then Some buy_limit_num else None;
       images := images;
       remark := match parts with
                 | [] => None
                 | _ => Some (String.concat newline parts)
                 end |})))))))))).

(** What the function needs of a row, one condition per step that can
    raise. *)
Definition build_requirements (goods : row) : Prop :=
  is_Some (dict_get "type" goods) ∧
  is_Some (dict_get "id" goods) ∧
  is_Some (dict_get "gd_name" goods) ∧
  (let keywords := get goods "gd_keywords" PyNone in
   truthy_val keywords = true → ∃ s, keywords = PyStr s) ∧
  raised (to_float (get goods "actual_price" (PyInt 0))) = false ∧
  raised (to_float (get goods "retail_price" (PyInt 0))) = false ∧
  raised (to_int (get goods "in_stock" (PyInt 0))) = false ∧
  raised (to_int (get goods "ord" (PyInt 1))) = false ∧
  raised (gt_zero (get goods "buy_limit_num" (PyInt 0))) = false ∧
  (∀ s e, get goods "picture" PyNone = PyStr s → s ≠ "" →
          json_loads s ≠ LoadRaises e).

End Build.

Arguments PyNone {opaque}.
Arguments PyInt {opaque} z.
Arguments PyBool {opaque} b.
Arguments PyStr {opaque} s.

End Transform.

(** * The command line *)
Module Cli.

(** The flags [main] builds the migration options from. *)
Record arguments := {
  arg_dry_run : bool;
  no_products : bool;
  no_carmis : bool;
  no_coupons : bool;
  arg_skip_disabled : bool;
  arg_batch_size : Z;
  product_status : string;
}.

(** [migration_opts] in [main] *)
Definition migration_opts (args : arguments) : MigrationOptions :=
  {| opt_migrate_products := negb (no_products args);
     opt_migrate_carmis := negb (no_carmis args);
     opt_migrate_coupons := negb (no_coupons args);
     dry_run := arg_dry_run args;
     batch_size := arg_batch_size args;
     skip_disabled := arg_skip_disabled args;
     default_product_status := product_status args |}.

(** How [engine.run()] ends, as the [try] of [main] tells the cases
    apart: it returns, raises an [Exception], or is cut short by
    [KeyboardInterrupt]. *)
Inductive run_end : Type :=
| Completed
| Failed (e : exn)
| Interrupted.

(** What [main] does, one entry per statement with an effect. *)
Inductive action : Type :=
| ReaderConnect
| ConsoleSay (text : string)
| TestConnection
| EngineRun (o : MigrationOptions)
| LogException
| ReaderClose.

Definition is_close (a : action) : bool :=
  match a with ReaderClose => true | _ => false end.

Definition is_test (a : action) : bool :=
  match a with TestConnection => true | _ => false end.

Definition is_run (a : action) : bool :=
  match a with EngineRun _ => true | _ => false end.

(** [main], from the connection to the database on: the actions in
    order and the exit status of the process.  [connect] is what
    [reader.connect()] does, [test_connection] what the connection test
    answers if it is asked, [engine_run] how the run ends. *)
Definition main (args : arguments) (connect : outcome unit)
    (test_connection : bool) (engine_run : MigrationOptions → run_end)
    : list action * Z :=
  let o := migration_opts args in
  match connect with
  | Raise e =>
      ([ReaderConnect;
        ConsoleSay ("[red]无法连接独角数卡数据库: " +:+ exn_str e +:+ "[/red]")], 1)
  | Return _ =>
      let tested :=
        if dry_run o then []
        else [ConsoleSay "Testing AuraLogic API connection..."; TestConnection] in
      if negb (dry_run o) && negb test_connection then
        (ReaderConnect :: tested ++
           [ConsoleSay "[red]无法连接 AuraLogic API，请检查 URL 和密钥[/red]";
            ReaderClose], 1)
      else
        let greeted :=
          if dry_run o then []
          else [ConsoleSay ("[green]API 连接成功[/green]" +:+ newline)] in
        let before := ReaderConnect :: tested ++ greeted ++ [EngineRun o] in
        match engine_run o with
        | Completed => (before ++ [ReaderClose], 0)
        | Interrupted =>
            (before ++
               [ConsoleSay (newline +:+ "[yellow]迁移被用户中断[/yellow]");
                ReaderClose], 130)
        | Failed e =>
            (before ++
               [ConsoleSay (newline +:+ "[red]迁移过程中发生错误: "
                              +:+ exn_str e +:+ "[/red]");
                LogException; ReaderClose], 1)
        end
  end.

End Cli.

(** * A small shop

    A concrete source, two clients and two networks, at which the
    statements below are instantiated. *)
Module Shop.

(** Goods rows are pairs of an identifier and a name; a product payload
    is its SKU; database cells and floats are integers. *)
Definition goods_rows : list (Z * string) := [(7, "Gift Card"); (8, "Broken")].

Definition item (content : string) (loop : Z) : carmi_row :=
  {| carmi := Some content; is_loop := Some loop |}.

(** Product 7 has four single-use codes, one reusable code and one code
    without content; product 9 has a single code without content. *)
Definition carmis_of (gid : Z) : list carmi_row :=
  if gid =? 7 then
    [item "A" 0; item "B" 1; item "C" 0; item "D" 0; item "E" 0; item "" 0]
  else if gid =? 9 then [item "" 0]
  else [].

Definition save10 : coupon_row Z :=
  {| coupon_id := 3; coupon := "SAVE10"; discount := 10; ret := 5;
     is_open := Some 1 |}.

(** The row of product 8 cannot be transformed. *)
Definition env : collaborators (Z * string) string Z Z :=
  {| goods_id := fst;
     gd_name := snd;
     _build_product_payload := λ _ g,
       if g.1 =? 8 then Raise (ValueError "could not convert string to float")
       else Return ("djk-" +:+ pretty g.1);
     to_float := Return;
     to_int := Return;
     get_goods := λ _, Return goods_rows;
     get_carmis_count := λ gid, Return (Z.of_nat (length (carmis_of gid)));
     get_carmis_by_goods := λ gid, Return (carmis_of gid);
     get_coupons := Return [save10];
     get_coupon_goods := λ _, Return [99; 7];
     get_summary := Return (1, 2, 7, 1) |}.

(** Every call succeeds; identifiers count up from 100 and every
    created stock item is number 55. *)
Definition ok_client (history : list (@event string Z)) (cl : @call string Z)
    : outcome response :=
  Return (RespObject (Some (100 + Z.of_nat (length history))) Absent (Object (Some 55))).

(** The same client, except that no inventory can be created. *)
Definition no_inventory_client (history : list (@event string Z))
    (cl : @call string Z) : outcome response :=
  match cl with
  | CreateVirtualInventory _ => Raise (RuntimeError 3 (Some "HTTPError"))
  | _ => ok_client history cl
  end.

Definition commit_options : MigrationOptions :=
  {| opt_migrate_products := true; opt_migrate_carmis := true;
     opt_migrate_coupons := true; dry_run := false; batch_size := 2;
     skip_disabled := false; default_product_status := "draft" |}.

Definition product_map_after_stage_1 : list (Z * Z) := [(7, 100); (8, sentinel)].







End Shop.

(** * Faults and odd configurations

    The shop again, with a collaborator that fails or an option set to
    an unusual value. *)
Module Faults.

(** The same options with another batch size. *)
Definition with_batch_size (b : Z) (o : MigrationOptions) : MigrationOptions :=
  {| opt_migrate_products := opt_migrate_products o;
     opt_migrate_carmis := opt_migrate_carmis o;
     opt_migrate_coupons := opt_migrate_coupons o;
     dry_run := dry_run o;
     batch_size := b;
     skip_disabled := skip_disabled o;
     default_product_status := default_product_status o |}.

(** Every call succeeds except the reservation of a stock item. *)
Definition no_reserve_client (history : list (@event string Z))
    (cl : @call string Z) : outcome response :=
  match cl with
  | ReserveStockItem _ _ _ => Raise (RuntimeError 3 (Some "HTTPError"))
  | _ => Shop.ok_client history cl
  end.

(** The shop's database loses its connection before the coupons are
    read. *)
Definition env_without_coupons : collaborators (Z * string) string Z Z :=
  {| goods_id := goods_id Shop.env;
     gd_name := gd_name Shop.env;
     _build_product_payload := _build_product_payload Shop.env;
     to_float := to_float Shop.env;
     to_int := to_int Shop.env;
     get_goods := get_goods Shop.env;
     get_carmis_count := get_carmis_count Shop.env;
     get_carmis_by_goods := get_carmis_by_goods Shop.env;
     get_coupons := Raise (OtherError "MySQL server has gone away");
     get_coupon_goods := get_coupon_goods Shop.env;
     get_summary := get_summary Shop.env |}.

(** The engine after stage 1 of the shop. *)
Definition after_stage_1 : @engine string Z :=
  set_product_map Shop.product_map_after_stage_1
    (new_engine Shop.ok_client Shop.commit_options).

(** A 429 whose Retry-After header is a date, and a parser of floats
    that rejects it. *)
Definition limited_until_a_date : Client.http_response :=
  {| Client.status_code := 429;
     Client.retry_after := Some "Wed, 21 Oct 2015 07:28:00 GMT";
     Client.resp_body := Client.EmptyText |}.

Definition always_dated (attempt : Z) (rq : Client.request)
    : Client.transport_result :=
  Client.Responds limited_until_a_date.

Definition digits_only (text : string) : bool :=
  bool_decide (text = "1") || bool_decide (text = "30").

(** A network that cannot be reached. *)
Definition unreachable (attempt : Z) (rq : Client.request)
    : Client.transport_result :=
  Client.Throws (RequestException "ConnectionError").

End Faults.

(** * A catalogue row

    One row of [goods] and a Python in which the only opaque object is a
    [Decimal] price, [strip] leaves its argument alone and [json.loads]
    knows one document. *)
Module Catalogue.
Import Transform.

Definition value : Type := @pyval unit.

Definition to_number (v : value) : outcome Z :=
  match v with
  | PyInt z => Return z
  | PyBool b => Return (if b then 1 else 0)
  | PyOther _ => Return 9
  | _ => Raise (OtherError "TypeError")
  end.

Definition json_loads (s : string) : loaded value :=
  if decide (s = "[0, 7]") then Loaded (PyList [PyInt 0; PyInt 7])
  else DecodeError.

Definition build : string → @row unit → outcome (@product unit Z) :=
  _build_product_payload (λ _ _, false) (λ _, true) (λ _, Return true)
    (λ _, AttributeError "'decimal.Decimal' object has no attribute 'split'")
    (λ _, "9.90") (λ _, "[...]") (λ s, s) to_number to_number json_loads.

Definition images_of : @row unit → outcome (option (list (value * bool))) :=
  Transform.images_of (λ _, true) json_loads.

(** A virtual product in a closed category, with a plain file name as
    its picture. *)
Definition gift_card : @row unit :=
  [ ("id", PyInt 7); ("gd_name", PyStr "Gift Card"); ("type", PyInt 1);
    ("is_open", PyInt 1); ("category_is_open", PyInt 0);
    ("gd_keywords", PyStr "gift,,card"); ("actual_price", PyOther tt);
    ("retail_price", PyInt 10); ("in_stock", PyInt 5); ("ord", PyInt 1);
    ("buy_limit_num", PyInt 2); ("picture", PyStr "cover.png");
    ("buy_prompt", PyStr "Read me"); ("api_hook", PyStr "https://hook") ].

End Catalogue.

(** * Facts about dictionaries *)
Section DictFacts.
Context {K V : Type} `{EqDecision K}.
Implicit Types (d : list (K * V)) (k : K) (v : V).

Lemma dict_get_None k d : dict_get k d = None ↔ k ∉ dict_keys d.
Proof.
  unfold dict_keys. induction d as [|[k' v'] d IH]; simpl.
  - split; [intros _; apply not_elem_of_nil | done].
  - destruct (decide (k = k')) as [->|Hne].
    + split; [done | intros Hn; destruct Hn; left].
    + rewrite IH, not_elem_of_cons. tauto.
Qed.

Lemma dict_get_Some_elem k v d : dict_get k d = Some v → (k, v) ∈ d.
Proof.
  induction d as [|[k' v'] d IH]; simpl; [done|].
  destruct (decide (k = k')) as [->|Hne].
  - intros [= ->]. left.
  - intros Hg. right. auto.
Qed.

Lemma dict_get_is_Some k d : is_Some (dict_get k d) ↔ k ∈ dict_keys d.
Proof.
  rewrite <- not_eq_None_Some, dict_get_None.
  split; [apply dec_stable | auto].
Qed.

Lemma dict_set_fresh k v d : k ∉ dict_keys d → dict_set k v d = d ++ [(k, v)].
Proof.
  unfold dict_keys. induction d as [|[k' v'] d IH]; simpl; [done|].
  rewrite not_elem_of_cons. intros [Hne Hnin].
  destruct (decide (k = k')); [done|]. by rewrite IH.
Qed.

Lemma dict_keys_set k v d :
  dict_keys (dict_set k v d) =
  if decide (k ∈ dict_keys d) then dict_keys d else dict_keys d ++ [k].
Proof.
  unfold dict_keys. induction d as [|[k' v'] d IH].
  - done.
  - cbn [dict_set]. destruct (decide (k = k')) as [->|Hne].
    + rewrite decide_True; [done | left].
    + cbn [fmap list_fmap fst]. change (list_fmap _ _ fst) with (fmap (M:=list) (@fst K V)).
      rewrite IH. destruct (decide (k ∈ d.*1)) as [Hin|Hnin].
      * rewrite decide_True; [done | by right].
      * rewrite decide_False; [done|]. rewrite not_elem_of_cons. done.
Qed.

Lemma dict_set_NoDup k v d : NoDup (dict_keys d) → NoDup (dict_keys (dict_set k v d)).
Proof.
  intros Hnd. rewrite dict_keys_set. case_decide; [done|].
  apply NoDup_app. split_and!; [done | | apply NoDup_singleton].
  intros x Hx Hx'. apply list_elem_of_singleton in Hx'. by subst.
Qed.


Lemma dict_get_app k d1 d2 :
  dict_get k (d1 ++ d2) =
  match dict_get k d1 with Some v => Some v | None => dict_get k d2 end.
Proof.
  induction d1 as [|[k0 v0] d1 IH]; simpl; [done|].
  by destruct (decide (k = k0)).
Qed.

Lemma dict_set_values (P : V → Prop) k v d :
  P v → Forall P d.*2 → Forall P (dict_set k v d).*2.
Proof.
  intros Hv. induction d as [|[k0 v0] d IH]; simpl.
  - intros _. by constructor.
  - intros Hall. apply Forall_cons in Hall as [H0 Hd].
    destruct (decide (k = k0)); simpl; constructor; auto.
Qed.
End DictFacts.

(** * Facts about the client *)
Module ClientFacts.
Import Client.

Section Request.
Variables (base_url : string) (retry_count : Z)
  (is_float_literal : string → bool)
  (transport : Z → request → transport_result).

Abbreviation attempts := (attempts retry_count is_float_literal transport).
Abbreviation one_attempt := (one_attempt is_float_literal transport).
Abbreviation _request := (_request base_url retry_count is_float_literal transport).

Lemma restore_lookup (saved : list (string * option string)) (session : headers) j :
  NoDup (dict_keys saved) →
  restore saved session !! j =
  match dict_get j saved with
  | Some (Some v) => Some v
  | _ => session !! j
  end.
Proof.
  unfold dict_keys. revert session.
  induction saved as [|[k o] saved IH]; intros session Hnd; simpl; [done|].
  cbn in Hnd. apply NoDup_cons in Hnd as [Hk Hnd].
  destruct (decide (j = k)) as [->|Hne].
  - apply (dict_get_None (V:=option string)) in Hk.
    destruct o as [v|]; rewrite IH, Hk by done; [|done].
    by rewrite lookup_insert_eq.
  - destruct o as [v|]; rewrite IH by done; [|done].
    destruct (dict_get j saved) as [[?|]|]; try done;
      by rewrite lookup_insert_ne.
Qed.

Lemma apply_overrides_restore ov (session : headers) saved kw :
  NoDup ov.*1 → NoDup (dict_keys saved) →
  (∀ k, k ∈ ov.*1 → k ∉ dict_keys saved) →
  let r := apply_overrides ov session saved kw in
  NoDup (dict_keys r.1.2) ∧ restore r.1.2 r.1.1 = restore saved session.
Proof.
  revert session saved kw.
  induction ov as [|[k [v|]] ov IH]; intros session saved kw Hov Hsv Hdisj; simpl.
  - done.
  - cbn in Hov. apply NoDup_cons in Hov as [_ Hov]. apply IH; [done..|].
    intros k' Hk'. apply Hdisj. by right.
  - cbn in Hov. apply NoDup_cons in Hov as [Hk Hov].
    assert (k ∉ dict_keys saved) as Hfresh by (apply Hdisj; left).
    destruct (IH (delete k session) (dict_set k (session !! k) saved) kw)
      as [Hnd Heq].
    + done.
    + by apply dict_set_NoDup.
    + intros k' Hk'. rewrite dict_keys_set, decide_False by done.
      rewrite not_elem_of_app, list_elem_of_singleton. split.
      * apply Hdisj. by right.
      * intros ->. done.
    + split; [done|]. rewrite Heq. apply map_eq. intros j.
      rewrite !restore_lookup by (done || by apply dict_set_NoDup).
      rewrite dict_set_fresh, dict_get_app by done. simpl.
      destruct (decide (j = k)) as [->|Hne].
      * apply (dict_get_None (V:=option string)) in Hfresh. rewrite Hfresh.
        destruct (session !! k) eqn:E; [done|]. by rewrite lookup_delete_eq.
      * destruct (dict_get j saved) as [[?|]|]; try done;
          by rewrite lookup_delete_ne.
Qed.

Lemma request_restores method path ov kw payload (session : headers) :
  NoDup ov.*1 → (_request method path ov kw payload session).1.2 = session.
Proof.
  intros Hov. unfold Client._request.
  pose proof (apply_overrides_restore ov session [] kw Hov) as H.
  destruct (apply_overrides ov session [] kw) as [[s1 sv] kw1]. simpl in H.
  destruct (Client.attempts _ _ _ _ _ _ _) as [o evs]. simpl.
  destruct H as [_ ->]; [apply NoDup_nil_2 | intros; apply not_elem_of_nil | done].
Qed.

Lemma attempts_sent_request slots attempt last rq :
  Forall (λ h, h = req_session_headers rq)
    (sent_session_headers (attempts slots attempt last rq).2).
Proof.
  revert attempt last. induction slots as [|slots IH]; intros attempt last; simpl.
  - constructor.
  - destruct (one_attempt attempt rq) as [v|e|wait|e].
    + by repeat constructor.
    + by repeat constructor.
    + specialize (IH (attempt + 1) last).
      destruct (attempts slots (attempt + 1) last rq) as [o evs]. simpl in *.
      by constructor.
    + specialize (IH (attempt + 1) (Some (exn_str e))).
      destruct (attempts slots (attempt + 1) (Some (exn_str e)) rq) as [o evs].
      simpl in *. constructor; [done|].
      destruct (attempt <? retry_count); simpl; done.
Qed.

Lemma request_sends_under method path ov kw payload (session : headers) :
  let r := _request method path ov kw payload session in
  Forall (λ h, h = (apply_overrides ov session [] kw).1.1)
    (sent_session_headers r.2).
Proof.
  unfold Client._request.
  destruct (apply_overrides ov session [] kw) as [[s1 sv] kw1] eqn:E.
  match goal with |- context [Client.attempts _ _ _ ?n ?k ?l ?rq] =>
    pose proof (attempts_sent_request n k l rq) as H;
    destruct (Client.attempts _ _ _ n k l rq) as [o evs] end.
  done.
Qed.

(** C8: the bulk import runs every request without the session's
    Content-Type and leaves the session headers as it found them,
    whatever the outcome; every other operation sends under the
    session headers unchanged and leaves them unchanged. *)
Theorem content_type_override_is_scoped (session : headers) :
  (∀ inventory_id items,
     let r := import_virtual_stock base_url retry_count is_float_literal
                transport inventory_id items session in
     r.1.2 = session ∧
     Forall (λ h, h = delete "Content-Type" session) (sent_session_headers r.2)) ∧
  (∀ method path payload,
     let r := plain_request base_url retry_count is_float_literal
                transport method path payload session in
     r.1.2 = session ∧
     Forall (λ h, h = session) (sent_session_headers r.2)).
Proof.
  split.
  - intros inventory_id items. unfold import_virtual_stock. split.
    + apply request_restores. cbn. apply NoDup_singleton.
    + apply (request_sends_under _ _ [("Content-Type", None)]).
  - intros method path payload. unfold plain_request. split.
    + apply request_restores. cbn. apply NoDup_nil_2.
    + apply (request_sends_under _ _ []).
Qed.



End Request.
End ClientFacts.

(** * Facts about the engine *)
Section EngineFacts.
Context {goods product_payload raw float : Type}.
Variable env : collaborators goods product_payload raw float.

Abbreviation state := (@engine product_payload float).
Abbreviation prog := (@M product_payload float).

(** ** The monad *)

Lemma bind_Return {A B} (m : prog A) (k : A → prog B) s a s' :
  m s = (Return a, s') → bind m k s = k a s'.
Proof. unfold bind. by intros ->. Qed.

Lemma bind_Raise {A B} (m : prog A) (k : A → prog B) s e s' :
  m s = (Raise e, s') → bind m k s = (Raise e, s').
Proof. unfold bind. by intros ->. Qed.

Lemma bind_Return_inv {A B} (m : prog A) (k : A → prog B) s b s' :
  bind m k s = (Return b, s') →
  ∃ a s1, m s = (Return a, s1) ∧ k a s1 = (Return b, s').
Proof.
  unfold bind. destruct (m s) as [[a|e] s1]; [eauto | done].
Qed.

(** A loop whose body never raises runs to its end: it is the fold of
    the body's effect over the list. *)
Lemma for_each_total {A} (body : A → prog unit) l s :
  (∀ a s, (body a s).1 = Return tt) →
  for_each l body s = (Return tt, foldl (λ s a, exec (body a) s) s l).
Proof.
  intros Hbody. revert s. induction l as [|a l IH]; intros s; simpl; [done|].
  unfold bind. specialize (Hbody a s). unfold exec at 2.
  destruct (body a s) as [[[]|e] s1]; simpl in *; [apply IH | done].
Qed.

Lemma try_except_total {A} (m : prog A) (h : exn → prog A) s :
  (∀ e s, ∃ a, (h e s).1 = Return a) →
  ∃ a, (try_except m h s).1 = Return a.
Proof.
  intros Hh. unfold try_except. destruct (m s) as [[a|e] s1]; simpl; eauto.
Qed.

(** ** Invariants *)

Lemma inv_pure (P : state → Prop) {A} (a : A) : inv P (pure a).
Proof. by intros s. Qed.
Lemma inv_lift (P : state → Prop) {A} (o : outcome A) : inv P (lift o).
Proof. by intros s. Qed.
Lemma inv_gets (P : state → Prop) {A} (f : state → A) : inv P (gets f).
Proof. by intros s. Qed.
Lemma inv_modify (P : state → Prop) f : (∀ s, P s → P (f s)) → inv P (modify f).
Proof. intros H s. apply H. Qed.
Lemma inv_call (P : state → Prop) c : (∀ ev s, P s → P (push_call ev s)) → inv P (call_client c).
Proof. intros H s. apply H. Qed.
Lemma inv_bind (P : state → Prop) {A B} (m : prog A) (k : A → prog B) :
  inv P m → (∀ a, inv P (k a)) → inv P (bind m k).
Proof.
  intros Hm Hk s Hs. unfold bind. specialize (Hm s Hs).
  destruct (m s) as [[a|e] s1]; simpl in *; [by apply Hk | done].
Qed.
Lemma inv_bind_gets (P : state → Prop) {A B} (f : state → A) (k : A → prog B) :
  (∀ s, P s → P (k (f s) s).2) → inv P (bind (gets f) k).
Proof. intros H s Hs. by apply H. Qed.
Lemma inv_try (P : state → Prop) {A} (m : prog A) (h : exn → prog A) :
  inv P m → (∀ e, inv P (h e)) → inv P (try_except m h).
Proof.
  intros Hm Hh s Hs. unfold try_except. specialize (Hm s Hs).
  destruct (m s) as [[a|e] s1]; simpl in *; [done | by apply Hh].
Qed.
Lemma inv_for_each (P : state → Prop) {A} (l : list A) (body : A → prog unit) :
  (∀ a, inv P (body a)) → inv P (for_each l body).
Proof.
  intros Hbody. induction l as [|a l IH]; [by intros s|].
  simpl. by apply inv_bind.
Qed.
Lemma inv_foldl (P : state → Prop) {A} (l : list A) (body : A → prog unit) s :
  (∀ a, inv P (body a)) → P s → P (foldl (λ s a, exec (body a) s) s l).
Proof.
  intros Hbody. revert s. induction l as [|a l IH]; intros s Hs; simpl; [done|].
  apply IH. by apply Hbody.
Qed.

Lemma engine_inv_refl (s0 : state) : engine_inv s0 s0.
Proof. unfold engine_inv. split_and!; auto. Qed.

Lemma inv_bind_opts (s0 : state) {B} (k : MigrationOptions → prog B) :
  inv (engine_inv s0) (k (opts s0)) → inv (engine_inv s0) (bind (gets opts) k).
Proof.
  intros H s Hs. unfold bind, gets. simpl.
  destruct Hs as (Hc & Ho & Hrest). rewrite Ho. apply H. exact (conj Hc (conj Ho Hrest)).
Qed.

Ltac inv_prim :=
  let s := fresh "s" in
  let Hd := fresh "Hd" in
  let Hdry := fresh "Hdry" in
  intros s (? & ? & ? & ? & ? & Hd);
  unfold engine_inv; simpl; split_and!;
  [ done | done | done
  | intros; auto using dict_set_NoDup
  | intros; auto using dict_set_NoDup
  | intros Hdry; destruct (Hd Hdry) as (? & ? & ? & ?);
    split_and!; try done; try congruence;
    intros; try apply dict_set_values; auto ].

Ltac inv_step :=
  lazymatch goal with
  | |- inv _ (bind (gets opts) _) => apply inv_bind_opts
  | |- inv _ (bind _ _) => apply inv_bind; [|intros ?]
  | |- inv _ (try_except _ _) => apply inv_try; [|intros ?]
  | |- inv _ (for_each _ _) => apply inv_for_each; intros ?
  | |- inv _ (pure _) => apply inv_pure
  | |- inv _ (lift _) => apply inv_lift
  | |- inv _ (gets _) => apply inv_gets
  | |- inv _ (log_info _) => apply inv_modify; inv_prim
  | |- inv _ (log_warning _) => apply inv_modify; inv_prim
  | |- inv _ (log_error _) => apply inv_modify; inv_prim
  | |- inv _ (console_print _) => apply inv_modify; inv_prim
  | |- inv _ (count _) => apply inv_modify; inv_prim
  | |- inv _ (modify _) => apply inv_modify; inv_prim
  | |- inv _ (call_client _) => apply inv_call; intros ?; inv_prim
  | |- inv _ (match ?x with _ => _ end) => destruct x eqn:?
  end.

Lemma inv_migrate_product (s0 : state) g : inv (engine_inv s0) (migrate_product env g).
Proof. unfold migrate_product, create_one_product. repeat inv_step. Qed.

Lemma inv_migrate_products (s0 : state) : inv (engine_inv s0) (migrate_products env).
Proof.
  unfold migrate_products. repeat inv_step. apply inv_migrate_product.
Qed.

Lemma inv_import_and_bind (s0 : state) pid vid carmis :
  dry_run (opts s0) = false →
  inv (engine_inv s0) (import_and_bind pid vid carmis).
Proof.
  intros Hcommit.
  unfold import_and_bind, import_batch, import_loop_item, bind_inventory.
  repeat inv_step.
Qed.

Lemma inv_migrate_carmis_for_goods (s0 : state) gid pid :
  inv (engine_inv s0) (_migrate_carmis_for_goods env gid pid).
Proof.
  unfold _migrate_carmis_for_goods. repeat inv_step.
  by apply inv_import_and_bind.
Qed.

Lemma inv_migrate_carmis (s0 : state) : inv (engine_inv s0) (migrate_carmis env).
Proof.
  unfold migrate_carmis, migrate_carmis_unit. repeat inv_step.
  apply inv_migrate_carmis_for_goods.
Qed.

Lemma inv_migrate_coupon (s0 : state) c : inv (engine_inv s0) (migrate_coupon env c).
Proof. unfold migrate_coupon, create_one_coupon. repeat inv_step. Qed.

Lemma inv_migrate_coupons (s0 : state) : inv (engine_inv s0) (migrate_coupons env).
Proof.
  unfold migrate_coupons. repeat inv_step. apply inv_migrate_coupon.
Qed.

Lemma inv_print_summary (s0 : state) : inv (engine_inv s0) print_summary.
Proof. unfold print_summary. repeat inv_step. Qed.

Lemma inv_run (s0 : state) : inv (engine_inv s0) (run env).
Proof.
  unfold run. repeat inv_step;
    auto using inv_migrate_products, inv_migrate_carmis,
      inv_migrate_coupons, inv_print_summary.
Qed.

(** ** What holds when a computation returns *)

Lemma post_bind (P : state → Prop) {A B} (m : prog A) (k : A → prog B) Q :
  inv P m → (∀ a, post P (k a) Q) → post P (bind m k) Q.
Proof.
  intros Hm Hk s b s' Hs Hrun.
  apply bind_Return_inv in Hrun as (a & s1 & Hms & Hks).
  eapply Hk; [|exact Hks]. specialize (Hm s Hs). by rewrite Hms in Hm.
Qed.

Lemma print_summary_spec (s : state) :
  print_summary s =
  (Return tt,
   push_console
     (ConsolePrint (newline +:+ "ID 映射表已保存到: [bold]migration_mapping.json[/bold]"))
     (set_mapping_file
        {| mapping_product_map := str_keys (product_map s);
           mapping_virtual_inventory_map := str_keys (vinv_map s) |}
        (push_console (ConsoleTable "迁移结果统计" (summary_rows (stats s)))
           (push_console (ConsoleRule "[bold green]迁移完成") s)))).
Proof. reflexivity. Qed.

(** However [run] gets to its end, it gets there through [print_summary]. *)
Lemma run_ends_in_print_summary s0 (Q : state → Prop) :
  (∀ s, engine_inv s0 s → Q (print_summary s).2) →
  post (engine_inv s0) (run env) Q.
Proof.
  intros HQ. unfold run.
  repeat lazymatch goal with
    | |- post _ (bind _ _) _ =>
        apply post_bind;
        [ repeat inv_step;
          auto using inv_migrate_products, inv_migrate_carmis, inv_migrate_coupons
        | intros ? ]
    | |- post _ (match ?x with _ => _ end) _ => destruct x eqn:?
    end.
  all: intros s r s' Hs Hrun; specialize (HQ s Hs); by rewrite Hrun in HQ.
Qed.

Lemma reported_after_print_summary (s : state) :
  reported_products_skipped (print_summary s).2 =
  Some (pretty (products_skipped (stats s))).
Proof.
  rewrite print_summary_spec. unfold reported_products_skipped. cbn [snd].
  cbn [console push_console set_mapping_file].
  rewrite <- !(assoc_L (++)). rewrite omap_app. cbn [omap list_omap app].
  rewrite decide_True by done. unfold summary_rows. cbn [dict_get].
  rewrite decide_False by done. rewrite decide_True by done.
  by rewrite last_snoc.
Qed.

(** C9: products_skipped starts at zero and no run changes it, in any
    mode and under any configuration, client and source data; a
    run that reaches its report shows "0" in the products-skipped row. *)
Theorem products_skipped_stays_zero c o :
  let r := run env (new_engine c o) in
  products_skipped (stats r.2) = 0%nat ∧
  (r.1 = Return tt → reported_products_skipped r.2 = Some "0").
Proof.
  intros r. split.
  - pose proof (inv_run (new_engine c o) _ (engine_inv_refl _)) as (_ & _ & H & _).
    exact H.
  - intros Hret. subst r.
    destruct (run env (new_engine c o)) as [o' s'] eqn:Hrun. simpl in Hret. subst o'.
    eapply (run_ends_in_print_summary (new_engine c o)
              (λ s, reported_products_skipped s = Some "0")); [|apply engine_inv_refl|exact Hrun].
    intros s (_ & _ & Hsk & _). rewrite reported_after_print_summary.
    by rewrite Hsk.
Qed.

(** ** Computations that return *)

Lemma returns_pure {A} (a : A) : returns (pure a : prog A).
Proof. by intros s. Qed.
Lemma returns_gets {A} (f : state → A) : returns (gets f).
Proof. by intros s. Qed.
Lemma returns_modify (f : state → state) : returns (modify f).
Proof. by intros s. Qed.
Lemma returns_lift {A} (o : outcome A) :
  raised o = false → returns (lift o : prog A).
Proof. by intros H s. Qed.
Lemma returns_bind {A B} (m : prog A) (k : A → prog B) :
  returns m → (∀ a, returns (k a)) → returns (bind m k).
Proof.
  intros Hm Hk s. unfold bind. specialize (Hm s).
  destruct (m s) as [[a|e] s1]; [apply Hk | done].
Qed.
Lemma returns_try {A} (m : prog A) (h : exn → prog A) :
  (∀ e, returns (h e)) → returns (try_except m h).
Proof.
  intros Hh s. unfold try_except.
  destruct (m s) as [[a|e] s1]; [done | apply Hh].
Qed.
Lemma returns_for_each {A} (l : list A) (body : A → prog unit) :
  (∀ a, returns (body a)) → returns (for_each l body).
Proof.
  intros Hbody. induction l as [|a l IH]; [by intros s|].
  simpl. by apply returns_bind.
Qed.

Lemma returns_unit (m : prog unit) s : returns m → (m s).1 = Return tt.
Proof. intros H. specialize (H s). by destruct (m s) as [[[]|e] s1]. Qed.

Ltac returns_step :=
  lazymatch goal with
  | |- returns (bind _ _) => apply returns_bind; [|intros ?]
  | |- returns (try_except _ _) => apply returns_try; intros ?
  | |- returns (for_each _ _) => apply returns_for_each; intros ?
  | |- returns (pure _) => apply returns_pure
  | |- returns (gets _) => apply returns_gets
  | |- returns (lift _) => apply returns_lift
  | |- returns (log_info _) => apply returns_modify
  | |- returns (log_warning _) => apply returns_modify
  | |- returns (log_error _) => apply returns_modify
  | |- returns (console_print _) => apply returns_modify
  | |- returns (count _) => apply returns_modify
  | |- returns (modify _) => apply returns_modify
  | |- returns (match ?x with _ => _ end) => destruct x eqn:?
  end.

(** The three loop bodies never let an exception out. *)
Lemma returns_migrate_product g : returns (migrate_product env g).
Proof. unfold migrate_product. repeat returns_step. Qed.
Lemma returns_migrate_carmis_unit item : returns (migrate_carmis_unit env item).
Proof. unfold migrate_carmis_unit. repeat returns_step. Qed.
Lemma returns_migrate_coupon c : returns (migrate_coupon env c).
Proof. unfold migrate_coupon. repeat returns_step. Qed.

Lemma goods_with_carmis_returns items :
  (∀ gid, raised (get_carmis_count env gid) = false) →
  raised (goods_with_carmis env items) = false.
Proof.
  intros Hcnt. induction items as [|[gid pid] items IH]; simpl; [done|].
  specialize (Hcnt gid). destruct (get_carmis_count env gid); [|done].
  by destruct (goods_with_carmis env items).
Qed.

Lemma returns_run : stage_queries_succeed env → returns (run env).
Proof.
  intros (Hsum & Hgoods & Hcnt & Hcoupons).
  unfold run, migrate_products, migrate_carmis, migrate_coupons, print_summary.
  repeat returns_step;
    first [ apply returns_migrate_product | apply returns_migrate_carmis_unit
          | apply returns_migrate_coupon | by apply goods_with_carmis_returns
          | done ].
Qed.

(** ** The mapping file *)

Lemma str_keys_from (d : list (Z * Z)) (acc : list (string * Z)) :
  NoDup (dict_keys acc ++ (pretty <$> dict_keys d)) →
  foldl (λ acc kv, dict_set (pretty kv.1) kv.2 acc) acc d =
  acc ++ ((λ kv, (pretty kv.1, kv.2)) <$> d).
Proof.
  unfold dict_keys. revert acc.
  induction d as [|[k v] d IH]; intros acc Hnd; simpl.
  - by rewrite app_nil_r.
  - simpl in Hnd. rewrite dict_set_fresh.
    + rewrite IH; [by rewrite <- (assoc_L (++))|].
      rewrite fmap_app. simpl. by rewrite <- (assoc_L (++)).
    + apply NoDup_app in Hnd as (_ & Hdisj & _).
      intros Hin. apply (Hdisj _ Hin). left.
Qed.

Lemma str_keys_fmap (d : list (Z * Z)) :
  NoDup (dict_keys d) → str_keys d = (λ kv, (pretty kv.1, kv.2)) <$> d.
Proof.
  intros Hnd. unfold str_keys. rewrite str_keys_from; [done|].
  simpl. by apply (NoDup_fmap_2 _).
Qed.

(** C10: a run that returns has written the mapping file, in commit
    mode and in a dry run alike, and the run does return when the
    queries made outside any [try] answer.  The file holds both
    identifier maps, keyed by the decimal form of the source
    identifiers; after a dry run every value in it is the sentinel -1. *)
Theorem mapping_file_written c o :
  let r := run env (new_engine c o) in
  (stage_queries_succeed env → r.1 = Return tt) ∧
  (r.1 = Return tt →
   mapping_file r.2 =
     Some {| mapping_product_map :=
               (λ kv, (pretty kv.1, kv.2)) <$> product_map r.2;
             mapping_virtual_inventory_map :=
               (λ kv, (pretty kv.1, kv.2)) <$> vinv_map r.2 |} ∧
   (dry_run o = true →
      Forall (λ kv, kv.2 = -1) (product_map r.2) ∧
      Forall (λ kv, kv.2 = -1) (vinv_map r.2))).
Proof.
  intros r. split.
  { intros Hq. apply returns_unit, returns_run, Hq. }
  intros Hret. subst r.
  destruct (run env (new_engine c o)) as [o' s'] eqn:Hrun. simpl in Hret. subst o'.
  eapply (run_ends_in_print_summary (new_engine c o)
            (λ s, mapping_file s =
                    Some {| mapping_product_map :=
                              (λ kv, (pretty kv.1, kv.2)) <$> product_map s;
                            mapping_virtual_inventory_map :=
                              (λ kv, (pretty kv.1, kv.2)) <$> vinv_map s |} ∧
                  (dry_run o = true →
                     Forall (λ kv, kv.2 = -1) (product_map s) ∧
                     Forall (λ kv, kv.2 = -1) (vinv_map s))));
    [|apply engine_inv_refl|exact Hrun].
  intros s (_ & _ & _ & Hpm & Hvm & Hdry). rewrite print_summary_spec. simpl.
  rewrite !str_keys_fmap by (first [apply Hpm | apply Hvm]; apply NoDup_nil_2).
  split; [done|]. intros Hd. destruct (Hdry Hd) as (_ & _ & Hp & Hv).
  rewrite !Forall_fmap in Hp, Hv. split; [apply Hp | apply Hv]; constructor.
Qed.

(** ** Units of work *)

Ltac unfold_engine :=
  unfold exec, migrate_product, create_one_product, migrate_coupon,
    create_one_coupon, migrate_carmis_unit, import_batch, import_loop_item,
    bind_inventory, try_except, bind, lift, gets, pure,
    log_info, log_warning, log_error, count, console_print, modify, call_client.

(** What one coupon does: the maps, the options and the client stay;
    created or failed goes up by one; in commit mode, when the payload
    can be built, exactly one create-promo-code call is made, with the
    payload computed from the product map. *)
Lemma migrate_coupon_spec c (s : state) :
  let s' := exec (migrate_coupon env c) s in
  (migrate_coupon env c s).1 = Return tt ∧
  product_map s' = product_map s ∧ vinv_map s' = vinv_map s ∧
  opts s' = opts s ∧ client s' = client s ∧
  (coupons_created (stats s') + coupons_failed (stats s') =
   coupons_created (stats s) + coupons_failed (stats s) + 1)%nat ∧
  api_calls s' = api_calls s ++
    match get_coupon_goods env (coupon_id c),
          to_float env (discount c), to_int env (ret c) with
    | Return gids, Return v, Return q =>
        if dry_run (opts s) then []
        else
          let cl := CreatePromoCode
                      (coupon_payload c (al_product_ids (product_map s) gids) v q) in
          [(cl, client s (api_calls s) cl)]
    | _, _, _ => []
    end.
Proof.
  unfold_engine.
  destruct (get_coupon_goods env (coupon_id c)) as [gids|e]; simpl;
    [|split_and!; first [done | lia | by rewrite app_nil_r]].
  destruct (to_float env (discount c)) as [v|e]; simpl;
    [|split_and!; first [done | lia | by rewrite app_nil_r]].
  destruct (to_int env (ret c)) as [q|e]; simpl;
    [|split_and!; first [done | lia | by rewrite app_nil_r]].
  destruct (dry_run (opts s)); simpl;
    [split_and!; first [done | lia | by rewrite app_nil_r]|].
  destruct (client s (api_calls s) _) as [r|e]; simpl;
    split_and!; first [done | lia].
Qed.

Lemma migrate_coupons_fold coupons (s : state) :
  get_coupons env = Return coupons →
  exec (migrate_coupons env) s =
  match coupons with
  | [] => push_log INFO NoCouponsFound s
  | _ => foldl (λ s c, exec (migrate_coupon env c) s)
           (push_log INFO (FoundCoupons (length coupons)) s) coupons
  end.
Proof.
  intros Hget. unfold exec at 1, migrate_coupons, bind, lift. rewrite Hget.
  destruct coupons as [|c coupons]; [done|].
  unfold log_info, modify. cbn [fst snd].
  rewrite for_each_total; [done|].
  intros a s1. apply returns_unit, returns_migrate_coupon.
Qed.

Lemma coupons_with_no_products coupons (s : state) :
  product_map s = [] →
  let s' := foldl (λ s c, exec (migrate_coupon env c) s) s coupons in
  product_map s' = [] ∧ opts s' = opts s ∧
  (coupons_created (stats s') + coupons_failed (stats s') =
   coupons_created (stats s) + coupons_failed (stats s) + length coupons)%nat ∧
  ∃ evs, api_calls s' = api_calls s ++ evs ∧
    Forall (λ ev : event, ∃ p, ev.1 = CreatePromoCode p ∧
              product_scope p = "all" ∧ product_ids p = None) evs ∧
    (dry_run (opts s) = false →
     Forall (λ c, raised (get_coupon_goods env (coupon_id c)) = false ∧
                  raised (to_float env (discount c)) = false ∧
                  raised (to_int env (ret c)) = false) coupons →
     length evs = length coupons).
Proof.
  revert s. induction coupons as [|c coupons IH]; intros s Hpm; simpl.
  - split_and!; [done | done | lia |].
    exists []. rewrite app_nil_r. split_and!; [done | constructor | done].
  - destruct (migrate_coupon_spec c s) as (_ & Hpm1 & _ & Ho1 & _ & Hcnt1 & Hcalls1).
    destruct (IH (exec (migrate_coupon env c) s)) as (Hpm2 & Ho2 & Hcnt2 & evs & Hcalls2 & Hall & Hlen).
    { by rewrite Hpm1. }
    split_and!; [done | by rewrite Ho2 | lia |].
    rewrite Hcalls1 in Hcalls2. rewrite <- (assoc_L (++)) in Hcalls2.
    eexists. split; [exact Hcalls2|]. rewrite Hpm in *.
    assert (∀ gids, al_product_ids [] gids = []) as Hal.
    { intros gids. unfold al_product_ids. induction gids; simpl; auto. }
    split.
    + apply Forall_app. split; [|done].
      destruct (get_coupon_goods env (coupon_id c)); [|constructor].
      destruct (to_float env (discount c)); [|constructor].
      destruct (to_int env (ret c)); [|constructor].
      destruct (dry_run (opts s)); constructor; [|constructor].
      eexists. split; [reflexivity|]. rewrite Hal. done.
    + intros Hdry Hread. apply Forall_cons in Hread as [(Hg & Hf & Hi) Hread].
      rewrite length_app, Hlen by (by rewrite ?Ho1). rewrite Hdry.
      destruct (get_coupon_goods env (coupon_id c)); [|done].
      destruct (to_float env (discount c)); [|done].
      by destruct (to_int env (ret c)).
Qed.

(** C7 (as amended): with an empty product map the stock stage does
    nothing but log a warning: no call, no statistic, no map entry.
    The coupon stage does not skip: every coupon is counted as created
    or failed, every call it makes creates a promo code with scope
    "all" and no product list, and in commit mode a call is made for
    each coupon whose payload can be built. *)
Theorem stages_on_empty_product_map (s : state) :
  product_map s = [] →
  migrate_carmis env s = (Return tt, push_log WARNING NoProductsMapped s) ∧
  (∀ coupons, get_coupons env = Return coupons →
     let s' := exec (migrate_coupons env) s in
     (coupons_created (stats s') + coupons_failed (stats s') =
      coupons_created (stats s) + coupons_failed (stats s) + length coupons)%nat ∧
     ∃ evs, api_calls s' = api_calls s ++ evs ∧
       Forall (λ ev : event, ∃ p, ev.1 = CreatePromoCode p ∧
                 product_scope p = "all" ∧ product_ids p = None) evs ∧
       (dry_run (opts s) = false →
        Forall (λ c, raised (get_coupon_goods env (coupon_id c)) = false ∧
                     raised (to_float env (discount c)) = false ∧
                     raised (to_int env (ret c)) = false) coupons →
        length evs = length coupons)).
Proof.
  intros Hpm. split.
  - unfold migrate_carmis, bind, gets. by rewrite Hpm.
  - intros coupons Hget s'. subst s'. rewrite (migrate_coupons_fold coupons s Hget).
    destruct coupons as [|c coupons].
    + simpl. split; [lia|]. exists []. rewrite app_nil_r.
      split_and!; [done | constructor | done].
    + pose proof (coupons_with_no_products (c :: coupons)
                    (push_log INFO (FoundCoupons (length (c :: coupons))) s) Hpm)
        as (_ & _ & Hcnt & evs & Hcalls & Hall & Hlen).
      split; [exact Hcnt|]. exists evs. split_and!; [exact Hcalls | exact Hall | exact Hlen].
Qed.

Lemma al_product_ids_migrated pm gids :
  al_product_ids pm gids = migrated_ids pm gids.
Proof.
  unfold al_product_ids, migrated_ids, is_migrated.
  induction gids as [|gid gids IH]; [done|].
  rewrite filter_cons. simpl.
  destruct (dict_get gid pm) as [pid|] eqn:Hget; simpl.
  - destruct (0 <? pid) eqn:Hpos.
    + rewrite decide_True by done. simpl. rewrite Hget. simpl. f_equal. apply IH.
    + rewrite decide_False by done. apply IH.
  - apply IH.
Qed.

(** C4: the product list of a coupon is exactly the mapped
    identifiers of its migrated products, in the order the references
    come; a reference with no mapping entry, or mapped to the sentinel,
    is not migrated.  An empty list gives scope "all" and no
    [product_ids]; a non-empty list gives scope "specific" with that
    list.  In commit mode this payload is the one sent. *)
Theorem coupon_scope_follows_product_map pm gids (c : coupon_row raw) v q :
  let al := al_product_ids pm gids in
  let p := coupon_payload c al v q in
  al = migrated_ids pm gids ∧
  (∀ gid, dict_get gid pm = None ∨ dict_get gid pm = Some sentinel →
     is_migrated pm gid = false) ∧
  (al = [] → product_scope p = "all" ∧ product_ids p = None) ∧
  (al ≠ [] → product_scope p = "specific" ∧ product_ids p = Some al) ∧
  (∀ s : state,
     dry_run (opts s) = false → product_map s = pm →
     get_coupon_goods env (coupon_id c) = Return gids →
     to_float env (discount c) = Return v → to_int env (ret c) = Return q →
     ∃ answer, api_calls (exec (migrate_coupon env c) s) =
               api_calls s ++ [(CreatePromoCode p, answer)]).
Proof.
  intros al p. split_and!.
  - apply al_product_ids_migrated.
  - intros gid [Hg|Hg]; unfold is_migrated; by rewrite Hg.
  - intros Hal. subst p. by rewrite Hal.
  - intros Hal. subst p. unfold coupon_payload. simpl. by destruct al.
  - intros s Hdry Hpm Hg Hf Hi.
    destruct (migrate_coupon_spec c s) as (_ & _ & _ & _ & _ & _ & Hcalls).
    rewrite Hg, Hf, Hi, Hdry, Hpm in Hcalls. eexists. exact Hcalls.
Qed.

(** C6 (as amended): an exception inside a product or a coupon is
    caught at the unit boundary, logged with the source identifier and
    counted in products_failed or coupons_failed.  An exception inside
    a product's stock migration is caught at the unit boundary and
    logged with the source identifier, and so is a failed batch, with
    the batch number and the inventory; no statistic counts either.
    Each of the three loops goes on to its last unit. *)
Theorem failures_are_isolated_per_unit :
  (∀ g (s s1 : state) e,
     create_one_product env g s = (Raise e, s1) →
     migrate_product env g s =
     (Return tt,
      set_stats (add_products_failed 1 (stats s1))
        (push_log ERROR (FailedProduct (gd_name env g) (goods_id env g) e) s1))) ∧
  (∀ c (s s1 : state) e,
     create_one_coupon env c s = (Raise e, s1) →
     migrate_coupon env c s =
     (Return tt,
      set_stats (add_coupons_failed 1 (stats s1))
        (push_log ERROR (FailedPromo (coupon c) (coupon_id c) e) s1))) ∧
  (∀ gid pid (s s1 : state) e,
     _migrate_carmis_for_goods env gid pid s = (Raise e, s1) →
     let r := migrate_carmis_unit env (gid, pid) s in
     r = (Return tt, push_log ERROR (FailedCarmis gid e) s1) ∧
     stats r.2 = stats s1) ∧
  (∀ vinv_id normal i (s : state) e,
     let cl := ImportVirtualStock vinv_id
                 (py_slice normal i (i + batch_size (opts s))) in
     client s (api_calls s) cl = Raise e →
     let r := import_batch vinv_id normal i s in
     r = (Return tt,
          push_log ERROR (FailedBatch (i / batch_size (opts s) + 1) vinv_id e)
            (push_call (cl, Raise e) s)) ∧
     stats r.2 = stats s) ∧
  (∀ (s : state) goods_list with_carmis coupons,
     for_each goods_list (migrate_product env) s =
       (Return tt, foldl (λ s g, exec (migrate_product env g) s) s goods_list) ∧
     for_each with_carmis (migrate_carmis_unit env) s =
       (Return tt, foldl (λ s i, exec (migrate_carmis_unit env i) s) s with_carmis) ∧
     for_each coupons (migrate_coupon env) s =
       (Return tt, foldl (λ s c, exec (migrate_coupon env c) s) s coupons)).
Proof.
  split_and!.
  - intros g s s1 e Hbody. unfold migrate_product, try_except. by rewrite Hbody.
  - intros c s s1 e Hbody. unfold migrate_coupon, try_except. by rewrite Hbody.
  - intros gid pid s s1 e Hbody r. subst r.
    unfold migrate_carmis_unit, try_except. simpl. by rewrite Hbody.
  - intros vinv_id normal i s e cl Hcl r. subst r cl.
    unfold_engine. simpl. by rewrite Hcl.
  - intros s goods_list with_carmis coupons. split_and!; apply for_each_total;
      intros a s1; apply returns_unit;
      [ apply returns_migrate_product | apply returns_migrate_carmis_unit
      | apply returns_migrate_coupon ].
Qed.

(** ** The product stage in commit mode *)





(** ** Batches *)

Lemma py_range_batches (n b : Z) :
  0 ≤ n → 0 < b →
  py_range 0 n b =
  Return ((λ k : nat, 0 + Z.of_nat k * b) <$> seq 0 (Z.to_nat ((n + b - 1) / b))).
Proof.
  intros Hn Hb. unfold py_range.
  destruct (b =? 0) eqn:E; [lia|].
  destruct (0 <? b) eqn:E'; [|lia].
  do 3 f_equal. destruct (0 <? n) eqn:En.
  - replace (n + b - 1) with (n - 0 - 1 + 1 * b) by lia.
    by rewrite Z.div_add by lia.
  - assert (n = 0) as -> by lia. by rewrite Z.div_small by lia.
Qed.

Lemma py_slice_chunk {A} (l : list A) (b : Z) (k : nat) :
  0 < b →
  py_slice l (0 + Z.of_nat k * b) (0 + Z.of_nat k * b + b) =
  take (Z.to_nat b) (drop (k * Z.to_nat b) l).
Proof.
  intros Hb. unfold py_slice, slice_bound.
  assert (0 ≤ Z.of_nat k * b) as Hkb by nia.
  destruct (0 + Z.of_nat k * b <? 0) eqn:E1; [lia|].
  destruct (0 + Z.of_nat k * b + b <? 0) eqn:E2; [lia|].
  assert (Z.to_nat (0 + Z.of_nat k * b) = (k * Z.to_nat b)%nat) as Hk by nia.
  destruct (decide (k * Z.to_nat b ≤ length l)%nat) as [Hle|Hgt].
  - replace (Z.to_nat (Z.min (0 + Z.of_nat k * b) (Z.of_nat (length l))))
      with (k * Z.to_nat b)%nat by lia.
    destruct (decide (k * Z.to_nat b + Z.to_nat b ≤ length l)%nat) as [Hle2|Hgt2].
    + f_equal. lia.
    + rewrite !take_ge; [done | rewrite length_drop; lia | rewrite length_drop; lia].
  - rewrite !drop_ge by lia. by rewrite !take_nil.
Qed.

Lemma concat_chunks {A} (l : list A) (b m : nat) :
  concat ((λ k, take b (drop (k * b) l)) <$> seq 0 m) = take (m * b) l.
Proof.
  induction m as [|m IH]; [by rewrite take_0|].
  rewrite seq_S, fmap_app, concat_app, IH. simpl.
  rewrite app_nil_r, take_take_drop. f_equal. lia.
Qed.

Lemma batches_cover {A} (l : list A) (b : Z) :
  0 < b →
  let n := Z.of_nat (length l) in
  concat ((λ i, py_slice l i (i + b)) <$>
          ((λ k : nat, 0 + Z.of_nat k * b) <$> seq 0 (Z.to_nat ((n + b - 1) / b)))) = l.
Proof.
  intros Hb n. rewrite <- list_fmap_compose.
  erewrite list_fmap_ext; [|intros ? k ?; apply (py_slice_chunk l b k Hb)].
  rewrite concat_chunks. apply take_ge.
  assert (0 ≤ (n + b - 1) / b) by (apply Z.div_pos; lia).
  pose proof (Z.div_mod (n + b - 1) b ltac:(lia)) as Hdm.
  pose proof (Z.mod_pos_bound (n + b - 1) b Hb) as Hmod.
  nia.
Qed.

(** ** The trace of one product's stock migration *)

Lemma created_none_reserve_follows (evs : list (@event product_payload float)) :
  created_contents evs = [] → reserve_follows_create evs.
Proof.
  intros Hnone i vinv_id content remark r o stock_id Hi _ _.
  assert (content ∈ created_contents evs) as Hin.
  { unfold created_contents. apply list_elem_of_omap. eexists.
    split; [by eapply list_elem_of_lookup_2|done]. }
  rewrite Hnone in Hin. by apply elem_of_nil in Hin.
Qed.

Lemma reserve_follows_app (evs1 evs2 : list (@event product_payload float)) :
  reserve_follows_create evs1 → reserve_follows_create evs2 →
  reserve_follows_create (evs1 ++ evs2).
Proof.
  unfold reserve_follows_create, event in *.
  intros H1 H2 i vinv_id content remark r o stock_id Hi Hx Ht.
  apply lookup_app_Some in Hi as [Hi|[Hlen Hi]].
  - destruct (H1 i vinv_id content remark r o stock_id) as [answer Ha]; [done..|].
    exists answer. by apply lookup_app_l_Some.
  - destruct (H2 (i - length evs1)%nat vinv_id content remark r o stock_id)
      as [answer Ha]; [done..|].
    exists answer. rewrite lookup_app_r by lia.
    by replace (S i - length evs1)%nat with (S (i - length evs1)) by lia.
Qed.

Lemma import_batches_trace vinv_id normal starts (s : state) :
  let s' := exec (for_each starts (import_batch vinv_id normal)) s in
  (for_each starts (import_batch vinv_id normal) s).1 = Return tt ∧
  opts s' = opts s ∧ client s' = client s ∧
  ∃ evs, api_calls s' = api_calls s ++ evs ∧
    bulk_batches evs =
      (λ i, py_slice normal i (i + batch_size (opts s))) <$> starts ∧
    created_contents evs = [].
Proof.
  revert s. induction starts as [|i starts IH]; intros s.
  - simpl. split_and!; try done. exists []. by rewrite app_nil_r.
  - cbn [for_each]. unfold exec, bind.
    destruct (import_batch vinv_id normal i s) as [o1 s1] eqn:Hstep.
    assert (o1 = Return tt ∧ opts s1 = opts s ∧ client s1 = client s ∧
            ∃ answer, api_calls s1 = api_calls s ++
              [(ImportVirtualStock vinv_id
                  (py_slice normal i (i + batch_size (opts s))), answer)])
      as (-> & Ho1 & Hc1 & answer & Hcalls1).
    { revert Hstep. unfold_engine. simpl.
      destruct (client s (api_calls s) _) as [r|e]; simpl;
        intros [= <- <-]; split_and!; try done; by eexists. }
    destruct (IH s1) as (Hret & Ho & Hc & evs & Hcalls & Hb & Hcr).
    unfold exec in *. split_and!; [done | congruence | congruence |].
    eexists. split; [rewrite Hcalls, Hcalls1, <- (assoc_L (++)); reflexivity|].
    split; [simpl; by rewrite Hb, Ho1 | done].
Qed.

Lemma import_loop_items_trace vinv_id loops (s : state) :
  let s' := exec (for_each loops (import_loop_item vinv_id)) s in
  (for_each loops (import_loop_item vinv_id) s).1 = Return tt ∧
  opts s' = opts s ∧ client s' = client s ∧
  ∃ evs, api_calls s' = api_calls s ++ evs ∧
    bulk_batches evs = [] ∧
    created_contents evs = (λ c, default "" (carmi c)) <$> loops ∧
    reserve_follows_create evs.
Proof.
  revert s. induction loops as [|c loops IH]; intros s.
  - simpl. split_and!; try done. exists []. rewrite app_nil_r.
    split_and!; done.
  - cbn [for_each]. unfold exec, bind.
    destruct (import_loop_item vinv_id c s) as [o1 s1] eqn:Hstep.
    assert (o1 = Return tt ∧ opts s1 = opts s ∧ client s1 = client s ∧
            ∃ evs1, api_calls s1 = api_calls s ++ evs1 ∧
              bulk_batches evs1 = [] ∧
              created_contents evs1 = [default "" (carmi c)] ∧
              reserve_follows_create evs1)
      as (-> & Ho1 & Hc1 & evs1 & Hcalls1 & Hb1 & Hcr1 & Hres1).
    { revert Hstep. unfold_engine. simpl.
      destruct (client s (api_calls s) _) as [r|e] eqn:Hcl; simpl;
        [destruct (extract_stock_id r) as [o|e] eqn:Hx; simpl;
         [destruct (if_truthy o) as [sid|] eqn:Ht; simpl;
          [destruct (client s _ (ReserveStockItem _ _ _)) as [r2|e2] eqn:Hcl2; simpl|]|]|].
      all: intros [= <- <-]; simpl; split_and!; try done.
      all: eexists; (split; [rewrite <- ?app_assoc; try reflexivity|]).
      all: split_and!; [done | done |].
      all: intros i v ct rm r' o' sid' Hi Hx' Ht'.
      all: destruct i as [|[|i]]; simpl in Hi; try done.
      all: injection Hi as <- <- <- <-; try congruence.
      all: assert (sid' = sid) as -> by congruence; by eexists. }
    destruct (IH s1) as (Hret & Ho & Hc & evs & Hcalls & Hb & Hcr & Hres).
    unfold exec in *. split_and!; [done | congruence | congruence |].
    exists (evs1 ++ evs). split; [by rewrite Hcalls, Hcalls1, <- (assoc_L (++))|].
    unfold bulk_batches, created_contents in *. rewrite !omap_app.
    rewrite Hb1, Hb, Hcr1, Hcr. split_and!; try done.
    by apply reserve_follows_app.
Qed.

Lemma bind_inventory_trace product_id vinv_id (s : state) :
  let s' := exec (bind_inventory product_id vinv_id) s in
  (bind_inventory product_id vinv_id s).1 = Return tt ∧
  ∃ evs, api_calls s' = api_calls s ++ evs ∧
    bulk_batches evs = [] ∧ created_contents evs = [].
Proof.
  unfold_engine. destruct (0 <? product_id); simpl.
  - destruct (client s (api_calls s) _) as [r|e]; simpl;
      (split; [done|]); by eexists.
  - split; [done|]. exists []. by rewrite app_nil_r.
Qed.

Lemma import_and_bind_trace product_id vinv_id carmis (s : state) :
  0 < batch_size (opts s) →
  let b := batch_size (opts s) in
  let n := Z.of_nat (length (normal_items carmis)) in
  let s' := exec (import_and_bind product_id vinv_id carmis) s in
  ∃ evs, api_calls s' = api_calls s ++ evs ∧
    bulk_batches evs =
      (λ i, py_slice (normal_items carmis) i (i + b)) <$>
      ((λ k : nat, 0 + Z.of_nat k * b) <$> seq 0 (Z.to_nat ((n + b - 1) / b))) ∧
    created_contents evs = (λ c, default "" (carmi c)) <$> loop_items carmis ∧
    reserve_follows_create evs.
Proof.
  intros Hb b n. unfold import_and_bind, exec, bind, gets, lift. cbn [fst snd].
  rewrite py_range_batches by (fold b; lia). fold b n.
  set (starts := (λ k : nat, 0 + Z.of_nat k * b) <$> seq 0 (Z.to_nat ((n + b - 1) / b))).
  destruct (import_batches_trace vinv_id (normal_items carmis) starts s)
    as (Hret1 & Ho1 & _ & evs1 & Hcalls1 & Hb1 & Hcr1).
  unfold exec in *.
  destruct (for_each starts (import_batch vinv_id (normal_items carmis)) s)
    as [o1 s1]. simpl in *. subst o1.
  destruct (import_loop_items_trace vinv_id (loop_items carmis) s1)
    as (Hret2 & _ & _ & evs2 & Hcalls2 & Hb2 & Hcr2 & Hres2).
  unfold exec in *.
  destruct (for_each (loop_items carmis) (import_loop_item vinv_id) s1)
    as [o2 s2]. simpl in *. subst o2.
  set (s3 := (match loop_items carmis with
              | [] => pure ()
              | _ :: _ => log_info (ImportedLoopCarmis (length (loop_items carmis)) vinv_id)
              end s2)).
  assert (s3.1 = Return tt ∧ api_calls s3.2 = api_calls s2) as [Hret3 Hcalls3].
  { subst s3. by destruct (loop_items carmis). }
  destruct s3 as [o3 s3']. simpl in *. subst o3.
  destruct (bind_inventory_trace product_id vinv_id s3')
    as (_ & evs4 & Hcalls4 & Hb4 & Hcr4).
  unfold exec in *.
  exists (evs1 ++ evs2 ++ evs4). split.
  - rewrite Hcalls4, Hcalls3, Hcalls2, Hcalls1. by rewrite <- !app_assoc.
  - unfold bulk_batches, created_contents in *. rewrite !omap_app.
    rewrite Hb1, Hb2, Hb4, Hcr1, Hcr2, Hcr4, !app_nil_r. split_and!; try done.
    apply reserve_follows_app; [|apply reserve_follows_app]; try done;
      by apply created_none_reserve_follows.
Qed.

(** C3 (as amended): in commit mode with a positive batch size, once
    the inventory of a product has been created, the items with empty
    content are left out; the non-reusable items that have content are
    sent in ceil(N/B) bulk imports whose contents, put end to end in
    call order, are those items in source order; the reusable items
    that have content are created one by one, in source order, and
    never sent in a batch; a creation that returns a stock identifier
    is followed at once by the reservation of that item. *)
Theorem stock_items_batched_in_order gid pid carmis r o vinv_id (s : state) :
  dry_run (opts s) = false →
  0 < batch_size (opts s) →
  get_carmis_by_goods env gid = Return carmis → carmis ≠ [] →
  client s (api_calls s) (CreateVirtualInventory (vinv_data gid)) = Return r →
  extract_id r = Return o → if_truthy o = Some vinv_id →
  let b := batch_size (opts s) in
  let n := Z.of_nat (length (normal_items carmis)) in
  let s' := exec (_migrate_carmis_for_goods env gid pid) s in
  ∃ evs,
    api_calls s' =
      api_calls s ++ (CreateVirtualInventory (vinv_data gid), Return r) :: evs ∧
    concat (bulk_batches evs) = normal_items carmis ∧
    Z.of_nat (length (bulk_batches evs)) = (n + b - 1) / b ∧
    created_contents evs = (λ c, default "" (carmi c)) <$> loop_items carmis ∧
    reserve_follows_create evs.
Proof.
  intros Hdry Hb Hget Hne Hcl Hx Ht.
  unfold _migrate_carmis_for_goods, exec, bind at 1, lift. cbn [fst snd].
  rewrite Hget. destruct carmis as [|c0 carmis0] eqn:Hcarmis; [done|].
  cbv iota. rewrite <- Hcarmis in *. clear Hne.
  unfold bind at 1, gets. cbn [fst snd]. rewrite Hdry.
  unfold bind at 1, call_client. cbn [fst snd]. rewrite Hcl.
  unfold bind at 1, lift. cbn [fst snd]. rewrite Hx, Ht.
  unfold bind at 1, modify. cbn [fst snd].
  unfold bind at 1, count, modify. cbn [fst snd].
  unfold bind at 1, log_info, modify. cbn [fst snd]. simpl.
  match goal with |- context [import_and_bind pid vinv_id carmis ?s0] =>
    destruct (import_and_bind_trace pid vinv_id carmis s0)
      as (evs & Hcalls & Hbatches & Hcr & Hres); [exact Hb|] end.
  unfold exec in Hcalls. simpl in Hcalls, Hbatches.
  exists evs. split_and!.
  - rewrite Hcalls. by rewrite <- app_assoc.
  - rewrite Hbatches. by apply batches_cover.
  - rewrite Hbatches, !length_fmap, length_seq.
    apply Z2Nat.id, Z.div_pos; lia.
  - done.
  - done.
Qed.

(** ** Statistics of the stock stage under a client that always succeeds *)

Lemma add_carmis_imported_add a b st :
  add_carmis_imported b (add_carmis_imported a st) = add_carmis_imported (a + b) st.
Proof. unfold add_carmis_imported. simpl. f_equal. lia. Qed.

Lemma add_carmis_imported_0 st : add_carmis_imported 0 st = st.
Proof. destruct st. unfold add_carmis_imported. simpl. f_equal. lia. Qed.

Lemma import_batches_stats c vinv_id normal starts (s : state) :
  always_succeeds c → client s = c →
  let s' := exec (for_each starts (import_batch vinv_id normal)) s in
  opts s' = opts s ∧ client s' = client s ∧ product_map s' = product_map s ∧
  stats s' =
    add_carmis_imported
      (length (concat ((λ i, py_slice normal i (i + batch_size (opts s))) <$> starts)))
      (stats s).
Proof.
  intros Hok. revert s. induction starts as [|i starts IH]; intros s Hc.
  - simpl. by rewrite add_carmis_imported_0.
  - cbn [for_each]. unfold exec, bind.
    destruct (import_batch vinv_id normal i s) as [o1 s1] eqn:Hstep.
    assert (o1 = Return tt ∧ opts s1 = opts s ∧ client s1 = client s ∧
            product_map s1 = product_map s ∧
            stats s1 = add_carmis_imported
                         (length (py_slice normal i (i + batch_size (opts s))))
                         (stats s))
      as (-> & Ho1 & Hc1 & Hpm1 & Hst1).
    { revert Hstep. unfold_engine. simpl. rewrite Hc.
      destruct (Hok (api_calls s)
                  (ImportVirtualStock vinv_id
                     (py_slice normal i (i + batch_size (opts s)))))
        as (r & -> & _). simpl. by intros [= <- <-]. }
    destruct (IH s1) as (Ho & Hc' & Hpm & Hst); [congruence|].
    unfold exec in *. split_and!; [congruence..|].
    rewrite Hst, Hst1, add_carmis_imported_add, Ho1.
    simpl. by rewrite length_app.
Qed.

Lemma import_loop_items_stats c vinv_id loops (s : state) :
  always_succeeds c → client s = c →
  let s' := exec (for_each loops (import_loop_item vinv_id)) s in
  opts s' = opts s ∧ client s' = client s ∧ product_map s' = product_map s ∧
  stats s' = add_carmis_imported (length loops) (stats s).
Proof.
  intros Hok. revert s. induction loops as [|l loops IH]; intros s Hc.
  - simpl. by rewrite add_carmis_imported_0.
  - cbn [for_each]. unfold exec, bind.
    destruct (import_loop_item vinv_id l s) as [o1 s1] eqn:Hstep.
    assert (o1 = Return tt ∧ opts s1 = opts s ∧ client s1 = client s ∧
            product_map s1 = product_map s ∧
            stats s1 = add_carmis_imported 1 (stats s))
      as (-> & Ho1 & Hc1 & Hpm1 & Hst1).
    { revert Hstep. unfold_engine. simpl. rewrite Hc.
      destruct (Hok (api_calls s)
                  (CreateVirtualStockItem vinv_id (default "" (carmi l)) loop_remark))
        as (r & -> & Hx). simpl.
      destruct (extract_stock_id r) as [o|e]; [|done]. simpl.
      destruct (if_truthy o) as [sid|]; simpl.
      - rewrite ?Hc.
        match goal with |- context [c ?h ?cl] =>
          destruct (Hok h cl) as (r2 & -> & _) end.
        simpl. by intros [= <- <-].
      - by intros [= <- <-]. }
    destruct (IH s1) as (Ho & Hc' & Hpm & Hst); [congruence|].
    unfold exec in *. split_and!; [congruence..|].
    by rewrite Hst, Hst1, add_carmis_imported_add.
Qed.

Lemma py_range_negative_step (n b : Z) : 0 ≤ n → b < 0 → py_range 0 n b = Return [].
Proof.
  intros Hn Hb. unfold py_range.
  destruct (b =? 0) eqn:E; [lia|]. destruct (0 <? b) eqn:E'; [lia|].
  destruct (n <? 0) eqn:E''; [lia|]. done.
Qed.

Lemma normal_and_loop_items carmis :
  Forall (λ c, truthy_str (carmi c) = true) carmis →
  (length (normal_items carmis) + length (loop_items carmis))%nat = length carmis.
Proof.
  unfold normal_items, loop_items. rewrite length_fmap.
  induction 1 as [|c carmis Hc _ IH]; [done|].
  rewrite !filter_cons, Hc. simpl.
  destruct (truthy (is_loop c)); simpl; lia.
Qed.

(** With a client that always succeeds, steps 2 and 3 change nothing
    but carmis_imported and bindings_created; with a positive batch
    size every item that has content is counted. *)
Lemma import_and_bind_stats c product_id vinv_id carmis (s : state) :
  always_succeeds c → client s = c →
  let s' := exec (import_and_bind product_id vinv_id carmis) s in
  opts s' = opts s ∧ client s' = client s ∧ product_map s' = product_map s ∧
  ∃ m k, stats s' = add_bindings_created k (add_carmis_imported m (stats s)) ∧
    (0 < batch_size (opts s) →
     m = (length (normal_items carmis) + length (loop_items carmis))%nat).
Proof.
  intros Hok Hc. unfold import_and_bind, exec, bind, gets, lift. cbn [fst snd].
  destruct (decide (batch_size (opts s) = 0)) as [Hz|Hnz].
  { unfold py_range. rewrite Hz. simpl. split_and!; try done.
    exists 0%nat, 0%nat. split; [|lia].
    rewrite add_carmis_imported_0. destruct (stats s).
    unfold add_bindings_created. simpl. f_equal. lia. }
  assert (∃ starts, py_range 0 (Z.of_nat (length (normal_items carmis)))
                      (batch_size (opts s)) = Return starts ∧
            (0 < batch_size (opts s) →
             length (concat ((λ i, py_slice (normal_items carmis) i
                                      (i + batch_size (opts s))) <$> starts))
             = length (normal_items carmis)))
    as (starts & -> & Hlen).
  { destruct (decide (0 < batch_size (opts s))) as [Hpos|Hneg].
    - eexists. split; [apply py_range_batches; lia|].
      intros _. by rewrite batches_cover.
    - exists []. split; [apply py_range_negative_step; lia | lia]. }
  destruct (import_batches_stats c vinv_id (normal_items carmis) starts s Hok Hc)
    as (Ho1 & Hc1 & Hpm1 & Hst1).
  unfold exec in *.
  pose proof (import_batches_trace vinv_id (normal_items carmis) starts s) as (Hret1 & _).
  destruct (for_each starts (import_batch vinv_id (normal_items carmis)) s)
    as [o1 s1]. simpl in *. subst o1.
  destruct (import_loop_items_stats c vinv_id (loop_items carmis) s1 Hok)
    as (Ho2 & Hc2 & Hpm2 & Hst2); [congruence|].
  unfold exec in *.
  pose proof (import_loop_items_trace vinv_id (loop_items carmis) s1) as (Hret2 & _).
  destruct (for_each (loop_items carmis) (import_loop_item vinv_id) s1)
    as [o2 s2]. simpl in *. subst o2.
  set (s3 := (match loop_items carmis with
              | [] => pure ()
              | _ :: _ => log_info (ImportedLoopCarmis (length (loop_items carmis)) vinv_id)
              end s2)).
  assert (s3.1 = Return tt ∧ opts s3.2 = opts s2 ∧ client s3.2 = client s2 ∧
          product_map s3.2 = product_map s2 ∧ stats s3.2 = stats s2)
    as (Hret3 & Ho3 & Hc3 & Hpm3 & Hst3).
  { subst s3. by destruct (loop_items carmis). }
  destruct s3 as [o3 s3']. simpl in *. subst o3.
  unfold_engine. destruct (0 <? product_id); simpl.
  - rewrite Hc3, Hc2, Hc1, Hc.
    match goal with |- context [c ?h ?cl] =>
      destruct (Hok h cl) as (r & -> & _) end.
    simpl. split_and!; [congruence..|].
    exists (length (concat ((λ i, py_slice (normal_items carmis) i
                                    (i + batch_size (opts s))) <$> starts))
            + length (loop_items carmis))%nat, 1%nat.
    split; [|intros Hpos; by rewrite Hlen].
    by rewrite Hst3, Hst2, Hst1, add_carmis_imported_add.
  - split_and!; [congruence..|].
    exists (length (concat ((λ i, py_slice (normal_items carmis) i
                                    (i + batch_size (opts s))) <$> starts))
            + length (loop_items carmis))%nat, 0%nat.
    split; [|intros Hpos; by rewrite Hlen].
    rewrite Hst3, Hst2, Hst1, add_carmis_imported_add.
    destruct (stats s). unfold add_bindings_created, add_carmis_imported.
    simpl. f_equal. lia.
Qed.

(** ** A dry run next to a commit run *)

Section DryAgainstCommit.
Variable c : list (@event product_payload float) →
             @call product_payload float → outcome response.
Variable o : MigrationOptions.
(** Whether carmis_imported is compared as well. *)
Variable strong : Prop.
Hypothesis client_ok : always_succeeds c.
Hypothesis strong_batch : strong → 0 < batch_size o.
Hypothesis strong_content : strong → every_item_has_content env.

Local Abbreviation same_statistics := (same_counters strong).
Local Abbreviation paired := (paired_states c o strong).
Local Abbreviation sim := (simulates c o strong).


Lemma sim_pure {A} (a : A) : sim (pure a) (pure a).
Proof. by intros s1 s2 H. Qed.
Lemma sim_lift {A} (x : outcome A) : sim (lift x) (lift x).
Proof. by intros s1 s2 H. Qed.
Lemma sim_modify f1 f2 :
  (∀ s1 s2, paired s1 s2 → paired (f1 s1) (f2 s2)) → sim (modify f1) (modify f2).
Proof. intros H s1 s2 Hp. split; [done | by apply H]. Qed.
Lemma sim_modify_l f1 :
  (∀ s1 s2, paired s1 s2 → paired (f1 s1) s2) → sim (modify f1) (pure tt).
Proof. intros H s1 s2 Hp. split; [done | by apply H]. Qed.
Lemma sim_bind {A B} (m1 m2 : prog A) (k1 k2 : A → prog B) :
  sim m1 m2 → (∀ a, sim (k1 a) (k2 a)) → sim (bind m1 k1) (bind m2 k2).
Proof.
  intros Hm Hk s1 s2 Hp. unfold bind. destruct (Hm s1 s2 Hp) as [Ho Hp'].
  destruct (m1 s1) as [[a1|e1] s1'], (m2 s2) as [[a2|e2] s2'];
    simpl in *; simplify_eq; [by apply Hk | done].
Qed.
Lemma sim_bind_opts {B} (k1 k2 : MigrationOptions → prog B) :
  sim (k1 (with_dry_run true o)) (k2 (with_dry_run false o)) →
  sim (bind (gets opts) k1) (bind (gets opts) k2).
Proof.
  intros H s1 s2 Hp. unfold bind, gets. simpl.
  destruct Hp as (Ho1 & Ho2 & Hrest). rewrite Ho1, Ho2.
  apply H. exact (conj Ho1 (conj Ho2 Hrest)).
Qed.
Lemma sim_for_each {A} (l : list A) (b1 b2 : A → prog unit) :
  (∀ a, sim (b1 a) (b2 a)) → sim (for_each l b1) (for_each l b2).
Proof.
  intros Hb. induction l as [|a l IH]; [apply sim_pure|].
  simpl. by apply sim_bind.
Qed.

Ltac paired_prim :=
  let s1 := fresh "s1" in let s2 := fresh "s2" in
  intros s1 s2 (? & ? & ? & ? & ?); unfold paired_states; simpl; by split_and!.

Lemma dict_keys_set_same (k : Z) (v1 v2 : Z) (d1 d2 : list (Z * Z)) :
  dict_keys d1 = dict_keys d2 →
  dict_keys (dict_set k v1 d1) = dict_keys (dict_set k v2 d2).
Proof. intros H. by rewrite !dict_keys_set, H. Qed.

Lemma sim_migrate_product g : sim (migrate_product env g) (migrate_product env g).
Proof.
  intros s1 s2 (Ho1 & Ho2 & Hc & Hk & Hst).
  unfold_engine. simpl. rewrite Ho1, Ho2. simpl.
  destruct (_build_product_payload env (default_product_status o) g)
    as [payload|e]; simpl.
  - rewrite Hc.
    destruct (client_ok (api_calls s2) (CreateProduct payload))
      as (r & -> & o' & id & Hx & Ht & _). simpl. rewrite Hx. simpl. rewrite Ht.
    simpl. split; [done|]. unfold paired_states, same_counters in *. simpl.
    destruct_and!. split_and!; try done; try congruence.
    by apply dict_keys_set_same.
  - split; [done|]. unfold paired_states, same_counters in *. simpl.
    destruct_and!. split_and!; try done; congruence.
Qed.

Lemma sim_migrate_coupon cp : sim (migrate_coupon env cp) (migrate_coupon env cp).
Proof.
  intros s1 s2 (Ho1 & Ho2 & Hc & Hk & Hst).
  unfold_engine. simpl.
  destruct (get_coupon_goods env (coupon_id cp)) as [gids|e]; simpl.
  2: { split; [done|]. unfold paired_states, same_counters in *. simpl.
       destruct_and!. split_and!; try done; congruence. }
  destruct (to_float env (discount cp)) as [v|e]; simpl.
  2: { split; [done|]. unfold paired_states, same_counters in *. simpl.
       destruct_and!. split_and!; try done; congruence. }
  destruct (to_int env (ret cp)) as [q|e]; simpl.
  2: { split; [done|]. unfold paired_states, same_counters in *. simpl.
       destruct_and!. split_and!; try done; congruence. }
  rewrite Ho1, Ho2. simpl. rewrite Hc.
  match goal with |- context [c ?h ?cl] =>
    destruct (client_ok h cl) as (r & -> & _) end.
  simpl. split; [done|]. unfold paired_states, same_counters in *. simpl.
  destruct_and!. split_and!; try done; congruence.
Qed.

Lemma carmis_unit_dry gid pid (s : state) :
  dry_run (opts s) = true →
  let r := migrate_carmis_unit env (gid, pid) s in
  r.1 = Return tt ∧ opts r.2 = opts s ∧ client r.2 = client s ∧
  product_map r.2 = product_map s ∧
  stats r.2 =
    match get_carmis_by_goods env gid with
    | Return (c0 :: cs) =>
        add_carmis_imported (length (c0 :: cs)) (add_vinv_created 1 (stats s))
    | _ => stats s
    end.
Proof.
  intros Hdry. unfold_engine. unfold _migrate_carmis_for_goods.
  unfold_engine. simpl.
  destruct (get_carmis_by_goods env gid) as [[|c0 cs]|e]; simpl; try done.
  by rewrite Hdry.
Qed.

Lemma carmis_unit_commit gid pid (s : state) :
  client s = c → dry_run (opts s) = false →
  let r := migrate_carmis_unit env (gid, pid) s in
  r.1 = Return tt ∧ opts r.2 = opts s ∧ client r.2 = client s ∧
  product_map r.2 = product_map s ∧
  match get_carmis_by_goods env gid with
  | Return (c0 :: cs) =>
      ∃ m k, stats r.2 =
               add_bindings_created k
                 (add_carmis_imported m (add_vinv_created 1 (stats s))) ∧
        (0 < batch_size (opts s) →
         m = (length (normal_items (c0 :: cs)) + length (loop_items (c0 :: cs)))%nat)
  | _ => stats r.2 = stats s
  end.
Proof.
  intros Hc Hdry. unfold_engine. unfold _migrate_carmis_for_goods.
  unfold_engine. simpl.
  destruct (get_carmis_by_goods env gid) as [[|c0 cs]|e]; simpl; try done.
  rewrite Hdry, Hc.
  destruct (client_ok (api_calls s) (CreateVirtualInventory (vinv_data gid)))
    as (r & -> & o' & id & Hx & Ht & _).
  simpl. rewrite Hx. simpl. rewrite Ht. simpl.
  match goal with |- context [import_and_bind pid id ?cs ?s0] =>
    assert (client s0 = c) as Hc0 by (by simpl);
    destruct (import_and_bind_stats c pid id cs s0 client_ok Hc0)
      as (Ho & Hcl & Hpm & m & k & Hst & Hm) end.
  unfold exec in *. simpl in *.
  match goal with |- context [import_and_bind pid id ?cs ?s0] =>
    destruct (import_and_bind pid id cs s0) as [[[]|e] s'] end; simpl in *.
  - split_and!; try done; try congruence. exists m, k. done.
  - split_and!; try done; try congruence. exists m, k. done.
Qed.

Lemma same_statistics_refl_step st1 st2 (cs : list carmi_row) m k :
  same_statistics st1 st2 →
  (strong → m = length cs) →
  same_statistics
    (add_carmis_imported (length cs) (add_vinv_created 1 st1))
    (add_bindings_created k (add_carmis_imported m (add_vinv_created 1 st2))).
Proof.
  unfold same_counters. simpl. intros (? & ? & ? & ? & ? & ? & Hs) Hm.
  split_and!; try done; try congruence.
  intros Hstrong. rewrite (Hs Hstrong), (Hm Hstrong). done.
Qed.

Lemma sim_migrate_carmis_unit gid p1 p2 :
  sim (migrate_carmis_unit env (gid, p1)) (migrate_carmis_unit env (gid, p2)).
Proof.
  intros s1 s2 (Ho1 & Ho2 & Hc & Hk & Hst).
  destruct (carmis_unit_dry gid p1 s1) as (Hr1 & Ho1' & _ & Hpm1 & Hst1);
    [by rewrite Ho1|].
  destruct (carmis_unit_commit gid p2 s2 Hc) as (Hr2 & Ho2' & Hc2 & Hpm2 & Hst2);
    [by rewrite Ho2|].
  split; [congruence|]. unfold paired_states.
  split_and!; [congruence | congruence | congruence | congruence |].
  rewrite Hst1.
  destruct (get_carmis_by_goods env gid) as [[|c0 cs]|e] eqn:Hget;
    try (by rewrite Hst2).
  destruct Hst2 as (m & k & -> & Hm).
  apply same_statistics_refl_step; [done|].
  intros Hstrong. rewrite Hm by (rewrite Ho2; simpl; auto).
  apply normal_and_loop_items. by eapply strong_content.
Qed.

Lemma goods_with_carmis_paired (pm1 pm2 : list (Z * Z)) :
  dict_keys pm1 = dict_keys pm2 →
  match goods_with_carmis env pm1, goods_with_carmis env pm2 with
  | Return l1, Return l2 => dict_keys l1 = dict_keys l2
  | Raise e1, Raise e2 => e1 = e2
  | _, _ => False
  end.
Proof.
  unfold dict_keys. revert pm2.
  induction pm1 as [|[gid p1] pm1 IH]; intros [|[gid2 p2] pm2] Hk;
    simpl in *; try done; try discriminate.
  injection Hk as <- Hk. specialize (IH pm2 Hk).
  destruct (get_carmis_count env gid) as [cnt|e]; [|done].
  destruct (goods_with_carmis env pm1) as [l1|e1],
           (goods_with_carmis env pm2) as [l2|e2]; try done.
  destruct (0 <? cnt); simpl; [by f_equal | done].
Qed.

Lemma sim_for_each_carmis (l1 l2 : list (Z * Z)) :
  dict_keys l1 = dict_keys l2 →
  sim (for_each l1 (migrate_carmis_unit env)) (for_each l2 (migrate_carmis_unit env)).
Proof.
  unfold dict_keys. revert l2.
  induction l1 as [|[gid p1] l1 IH]; intros [|[gid2 p2] l2] Hk;
    simpl in *; try done; try discriminate; try apply sim_pure.
  injection Hk as <- Hk. apply sim_bind; [apply sim_migrate_carmis_unit|].
  intros _. by apply IH.
Qed.

Lemma migrate_carmis_unfold (s : state) :
  migrate_carmis env s =
  match product_map s with
  | [] => (Return tt, push_log WARNING NoProductsMapped s)
  | _ =>
      match goods_with_carmis env (product_map s) with
      | Raise e => (Raise e, s)
      | Return [] => (Return tt, push_log INFO NoCarmisFound s)
      | Return with_carmis =>
          for_each with_carmis (migrate_carmis_unit env)
            (push_log INFO (FoundCarmis (length with_carmis)) s)
      end
  end.
Proof.
  unfold migrate_carmis, bind, gets, lift. simpl.
  destruct (product_map s) as [|kv pm]; [done|].
  by destruct (goods_with_carmis env (kv :: pm)) as [[|i l]|e].
Qed.

Lemma sim_migrate_carmis : sim (migrate_carmis env) (migrate_carmis env).
Proof.
  intros s1 s2 Hp. pose proof Hp as (Ho1 & Ho2 & Hc & Hk & Hst).
  rewrite !migrate_carmis_unfold.
  pose proof (goods_with_carmis_paired _ _ Hk) as Hgwc.
  destruct (product_map s1) as [|kv1 pm1] eqn:Hpm1,
           (product_map s2) as [|kv2 pm2] eqn:Hpm2; try done.
  all: try (split; [done|]; unfold paired_states; simpl; by rewrite Hpm1, Hpm2).
  destruct (goods_with_carmis env (kv1 :: pm1)) as [l1|e1],
           (goods_with_carmis env (kv2 :: pm2)) as [l2|e2]; try done;
    [|by subst].
  destruct l1 as [|i1 l1], l2 as [|i2 l2]; try done.
  all: try (split; [done|]; unfold paired_states; simpl; by rewrite Hpm1, Hpm2).
  apply sim_for_each_carmis; [done|].
  unfold paired_states. simpl. by rewrite Hpm1, Hpm2.
Qed.

Lemma sim_migrate_products : sim (migrate_products env) (migrate_products env).
Proof.
  unfold migrate_products. apply sim_bind_opts. simpl.
  apply sim_bind; [apply sim_lift|]. intros [|g goods_list].
  - apply sim_modify. paired_prim.
  - apply sim_bind; [apply sim_modify; paired_prim|]. intros _.
    apply sim_for_each, sim_migrate_product.
Qed.

Lemma sim_migrate_coupons : sim (migrate_coupons env) (migrate_coupons env).
Proof.
  unfold migrate_coupons.
  apply sim_bind; [apply sim_lift|]. intros [|cp coupons].
  - apply sim_modify. paired_prim.
  - apply sim_bind; [apply sim_modify; paired_prim|]. intros _.
    apply sim_for_each, sim_migrate_coupon.
Qed.

Lemma sim_print_summary : sim print_summary print_summary.
Proof.
  intros s1 s2 (? & ? & ? & ? & ?). rewrite !print_summary_spec.
  split; [done|]. unfold paired_states. simpl. by split_and!.
Qed.

Lemma sim_run : sim (run env) (run env).
Proof.
  unfold run.
  apply sim_bind; [apply sim_modify; paired_prim|]. intros _.
  apply sim_bind_opts. simpl.
  apply sim_bind; [apply sim_modify_l; paired_prim|]. intros _.
  apply sim_bind; [apply sim_lift|]. intros [[[categories n_goods] unsold] n_coupons].
  apply sim_bind; [apply sim_modify; paired_prim|]. intros _.
  apply sim_bind; [apply sim_modify; paired_prim|]. intros _.
  apply sim_bind.
  { destruct (opt_migrate_products o); [|apply sim_pure].
    apply sim_bind; [apply sim_modify; paired_prim|]. intros _.
    apply sim_bind; [apply sim_migrate_products|]. intros _.
    apply sim_modify; paired_prim. }
  intros _. apply sim_bind.
  { destruct (opt_migrate_carmis o); [|apply sim_pure].
    apply sim_bind; [apply sim_modify; paired_prim|]. intros _.
    apply sim_bind; [apply sim_migrate_carmis|]. intros _.
    apply sim_modify; paired_prim. }
  intros _. apply sim_bind.
  { destruct (opt_migrate_coupons o); [|apply sim_pure].
    apply sim_bind; [apply sim_modify; paired_prim|]. intros _.
    apply sim_bind; [apply sim_migrate_coupons|]. intros _.
    apply sim_modify; paired_prim. }
  intros _. apply sim_print_summary.
Qed.
End DryAgainstCommit.

(** C1 (as amended): against a client that always succeeds, a dry run
    and a commit run over the same source end with the same
    products_created, products_skipped, products_failed, vinv_created,
    coupons_created and coupons_failed; they end with the same
    carmis_imported when the batch size is positive and every stock
    item has content.  The dry run makes no call on the client and
    never counts a binding. *)
Theorem dry_run_statistics c o :
  always_succeeds c →
  let dry := exec (run env) (new_engine c (with_dry_run true o)) in
  let commit := exec (run env) (new_engine c (with_dry_run false o)) in
  products_created (stats dry) = products_created (stats commit) ∧
  products_skipped (stats dry) = products_skipped (stats commit) ∧
  products_failed (stats dry) = products_failed (stats commit) ∧
  vinv_created (stats dry) = vinv_created (stats commit) ∧
  coupons_created (stats dry) = coupons_created (stats commit) ∧
  coupons_failed (stats dry) = coupons_failed (stats commit) ∧
  (0 < batch_size o → every_item_has_content env →
   carmis_imported (stats dry) = carmis_imported (stats commit)) ∧
  bindings_created (stats dry) = 0%nat ∧
  api_calls dry = [].
Proof.
  intros Hok dry commit.
  destruct (sim_run c o (0 < batch_size o ∧ every_item_has_content env) Hok
              ltac:(tauto) ltac:(tauto)
              (new_engine c (with_dry_run true o))
              (new_engine c (with_dry_run false o)))
    as (_ & _ & _ & _ & _ & H1 & H2 & H3 & H4 & H5 & H6 & H7).
  { unfold paired_states, same_counters. simpl. by split_and!. }
  pose proof (inv_run (new_engine c (with_dry_run true o)) _ (engine_inv_refl _))
    as (_ & _ & _ & _ & _ & Hdry).
  destruct (Hdry eq_refl) as (Hcalls & Hbind & _).
  subst dry commit. unfold exec. split_and!; try done. by auto.
Qed.
End EngineFacts.

(** * The statements at the shop *)

Lemma ok_client_always_succeeds : always_succeeds Shop.ok_client.
Proof.
  intros history cl. eexists. split; [reflexivity|].
  destruct cl; try done.
  all: exists (Some (100 + Z.of_nat (length history))), (100 + Z.of_nat (length history)).
  all: simpl.
  all: destruct (100 + Z.of_nat (length history) =? 0) eqn:E; [lia|].
  all: simpl; rewrite ?E; split_and!; try done; lia.
Qed.

Lemma dry_run_statistics_witness :
  let dry := exec (run Shop.env)
               (new_engine Shop.ok_client (with_dry_run true Shop.commit_options)) in
  let commit := exec (run Shop.env)
                  (new_engine Shop.ok_client (with_dry_run false Shop.commit_options)) in
  products_created (stats dry) = products_created (stats commit) ∧
  products_skipped (stats dry) = products_skipped (stats commit) ∧
  products_failed (stats dry) = products_failed (stats commit) ∧
  vinv_created (stats dry) = vinv_created (stats commit) ∧
  coupons_created (stats dry) = coupons_created (stats commit) ∧
  coupons_failed (stats dry) = coupons_failed (stats commit) ∧
  (0 < batch_size Shop.commit_options → every_item_has_content Shop.env →
   carmis_imported (stats dry) = carmis_imported (stats commit)) ∧
  bindings_created (stats dry) = 0%nat ∧
  api_calls dry = [].
Proof.
  exact (dry_run_statistics Shop.env Shop.ok_client Shop.commit_options
           ok_client_always_succeeds).
Defined.

(** C1, as stated, fails: against the client that always succeeds the two
    modes end with different statistics; the dry run counts no binding
    where the commit run counts one, and counts the item without content
    that the commit run leaves out. *)
Lemma dry_and_commit_statistics_differ :
  let dry := exec (run Shop.env)
               (new_engine Shop.ok_client (with_dry_run true Shop.commit_options)) in
  let commit := exec (run Shop.env)
                  (new_engine Shop.ok_client (with_dry_run false Shop.commit_options)) in
  stats dry ≠ stats commit ∧
  bindings_created (stats dry) = 0%nat ∧ bindings_created (stats commit) = 1%nat ∧
  carmis_imported (stats dry) = 6%nat ∧ carmis_imported (stats commit) = 5%nat.
Proof. vm_compute. split_and!; [discriminate | reflexivity..]. Qed.


Lemma stock_items_batched_in_order_witness :
  let s := new_engine Shop.ok_client Shop.commit_options in
  let s' := exec (_migrate_carmis_for_goods Shop.env 7 100) s in
  ∃ evs,
    api_calls s' =
      api_calls s ++
      (CreateVirtualInventory (vinv_data 7),
       Return (RespObject (Some 100) Absent (Object (Some 55)))) :: evs ∧
    concat (bulk_batches evs) = ["A"; "C"; "D"; "E"] ∧
    Z.of_nat (length (bulk_batches evs)) = (4 + 2 - 1) / 2 ∧
    created_contents evs = ["B"] ∧
    reserve_follows_create evs.
Proof.
  apply (stock_items_batched_in_order Shop.env 7 100 (Shop.carmis_of 7)
           (RespObject (Some 100) Absent (Object (Some 55))) (Some 100) 100
           (new_engine Shop.ok_client Shop.commit_options)).
  - reflexivity.
  - simpl. lia.
  - reflexivity.
  - discriminate.
  - reflexivity.
  - reflexivity.
  - reflexivity.
Defined.

(** C3, as stated, fails: product 9 has one non-reusable item, so one
    bulk import is promised for a batch size of 2; the item has no
    content and no bulk import is made. *)
Lemma item_without_content_is_not_imported :
  let s := new_engine Shop.ok_client Shop.commit_options in
  let s' := exec (_migrate_carmis_for_goods Shop.env 9 100) s in
  let non_reusable := filter (λ c, truthy (is_loop c) = false) (Shop.carmis_of 9) in
  length non_reusable = 1%nat ∧
  bulk_batches (api_calls s') = [] ∧
  Z.of_nat (length (bulk_batches (api_calls s'))) ≠
    (Z.of_nat (length non_reusable) + batch_size (opts s) - 1) / batch_size (opts s).
Proof. vm_compute. split_and!; [reflexivity | reflexivity | discriminate]. Qed.

Lemma coupon_scope_follows_product_map_witness :
  let p := coupon_payload Shop.save10
             (al_product_ids Shop.product_map_after_stage_1 [99; 8; 7]) 10 5 in
  product_scope p = "specific" ∧ product_ids p = Some [100].
Proof.
  destruct (coupon_scope_follows_product_map Shop.env
              Shop.product_map_after_stage_1 [99; 8; 7] Shop.save10 10 5)
    as (_ & _ & _ & Hspecific & _).
  apply Hspecific. discriminate.
Defined.

Lemma failures_are_isolated_per_unit_witness :
  let s := new_engine Shop.ok_client Shop.commit_options in
  let e := ValueError "could not convert string to float" in
  migrate_product Shop.env (8, "Broken") s =
  (Return tt,
   set_stats (add_products_failed 1 (stats s))
     (push_log ERROR (FailedProduct "Broken" 8 e) s)).
Proof.
  destruct (failures_are_isolated_per_unit Shop.env) as (Hproduct & _).
  apply (Hproduct (8, "Broken")). reflexivity.
Defined.

(** C6, as stated, fails: when the inventory of product 7 cannot be
    created, the exception is caught and logged, and no statistic
    changes: no failure counter counts it. *)
Lemma stock_failure_is_not_counted :
  let s := new_engine Shop.no_inventory_client Shop.commit_options in
  let e := RuntimeError 3 (Some "HTTPError") in
  (_migrate_carmis_for_goods Shop.env 7 100 s).1 = Raise e ∧
  let r := migrate_carmis_unit Shop.env (7, 100) s in
  r.1 = Return tt ∧
  log r.2 = [(ERROR, FailedCarmis 7 e)] ∧
  stats r.2 = stats s.
Proof. vm_compute. by split_and!. Qed.

Lemma stages_on_empty_product_map_witness :
  let s := new_engine Shop.ok_client Shop.commit_options in
  migrate_carmis Shop.env s = (Return tt, push_log WARNING NoProductsMapped s) ∧
  (∀ coupons, get_coupons Shop.env = Return coupons →
     let s' := exec (migrate_coupons Shop.env) s in
     (coupons_created (stats s') + coupons_failed (stats s') =
      coupons_created (stats s) + coupons_failed (stats s) + length coupons)%nat ∧
     ∃ evs, api_calls s' = api_calls s ++ evs ∧
       Forall (λ ev : event, ∃ p, ev.1 = CreatePromoCode p ∧
                 product_scope p = "all" ∧ product_ids p = None) evs ∧
       (dry_run (opts s) = false →
        Forall (λ c, raised (get_coupon_goods Shop.env (coupon_id c)) = false ∧
                     raised (to_float Shop.env (discount c)) = false ∧
                     raised (to_int Shop.env (ret c)) = false) coupons →
        length evs = length coupons)).
Proof.
  apply (stages_on_empty_product_map Shop.env
           (new_engine Shop.ok_client Shop.commit_options)).
  reflexivity.
Defined.

(** C7, as stated, fails for the coupon stage: with an empty product map
    it calls the client and counts a created coupon. *)
Lemma coupons_are_created_without_products :
  let s := new_engine Shop.ok_client Shop.commit_options in
  let s' := exec (migrate_coupons Shop.env) s in
  product_map s = [] ∧
  length (api_calls s') = 1%nat ∧
  promo_payloads (api_calls s') =
    [coupon_payload Shop.save10 [] 10 5] ∧
  coupons_created (stats s') = 1%nat.
Proof. vm_compute. by split_and!. Qed.

Lemma products_skipped_stays_zero_witness :
  let r := run Shop.env (new_engine Shop.ok_client Shop.commit_options) in
  products_skipped (stats r.2) = 0%nat ∧ reported_products_skipped r.2 = Some "0".
Proof.
  destruct (products_skipped_stays_zero Shop.env Shop.ok_client Shop.commit_options)
    as [Hzero Hreport].
  split; [exact Hzero|]. apply Hreport. vm_compute. reflexivity.
Defined.

Lemma shop_queries_succeed : stage_queries_succeed Shop.env.
Proof. by split_and!. Defined.

Lemma mapping_file_written_witness :
  let r := run Shop.env
             (new_engine Shop.ok_client (with_dry_run true Shop.commit_options)) in
  r.1 = Return tt ∧
  mapping_file r.2 =
    Some {| mapping_product_map := [("7", -1)];
            mapping_virtual_inventory_map := [("7", -1)] |} ∧
  Forall (λ kv, kv.2 = -1) (product_map r.2) ∧
  Forall (λ kv, kv.2 = -1) (vinv_map r.2).
Proof.
  destruct (mapping_file_written Shop.env Shop.ok_client
              (with_dry_run true Shop.commit_options)) as [Hreturns Hfile].
  pose proof (Hreturns shop_queries_succeed) as Hret.
  destruct (Hfile Hret) as [Hmap Hdry].
  split; [exact Hret|]. split; [|apply Hdry; reflexivity].
  etrans; [exact Hmap|]. vm_compute. reflexivity.
Defined.

Module ClientInstances.
Import Client.


End ClientInstances.
